(** * Electronics Lab Inventory (LIMS) backend: model and properties

    A shallow embedding of [backend/models.py] (the [Component] model and
    its derived values and stock mutators) and of [backend/app.py] (the
    Flask views [health_check], [login], [get_components] and the error
    handlers), followed by the properties proved about them.

    Python values are modelled as follows.
    - [int] is [Z] (unbounded).
    - [float] is an IEEE binary64 value, [spec_float] of the standard
      library, with [prec = 53] and [emax = 1024].
    - [decimal.Decimal] is a finite decimal (sign, coefficient, exponent)
      with the arithmetic of the default context (28 digits, half-even).
    - [str] is [string]; a [dict] with string keys is an association list
      in insertion order; a JSON document is the tree [json].
    - objects that are mutated in place live in a store indexed by
      address; a view runs in a state monad over the process state. *)

From stdpp Require Import base list strings gmap.
From Stdlib Require Import ZArith NArith String Ascii List Bool Lia.
From Stdlib Require Import Floats.SpecFloat.
Import ListNotations.

Set Warnings "-register-all".

Local Open Scope Z_scope.
Local Open Scope string_scope.

(** ** Python numbers *)

Module Py.

(** [float]: binary64. *)
Definition prec : Z := 53.
Definition emax : Z := 1024.
Definition float := spec_float.

(** [bool(f)] for a float: only the two zeros are falsy (NaN is truthy). *)
Definition float_bool (f : float) : bool :=
  match f with
  | S754_zero _ => false
  | _ => true
  end.

(** [float(z)] for an int, correctly rounded. *)
Definition float_of_int (z : Z) : float :=
  binary_normalize prec emax z 0 false.

(** A finite [decimal.Decimal]: [(-1)^sign * coef * 10^exp].  The special
    values (NaN, Infinity) and exponents outside the context's range are
    not part of the model. *)
Record Decimal : Type := mkDecimal {
  dec_sign : bool;
  dec_coef : N;
  dec_exp  : Z
}.

(** [Decimal.__bool__]: a decimal is falsy exactly when its coefficient
    is zero, whatever its sign and exponent ([Decimal('0.00')],
    [Decimal('-0')]). *)
Definition decimal_bool (d : Decimal) : bool :=
  negb (N.eqb (dec_coef d) 0).

(** [Decimal(z)] for an int. *)
Definition decimal_of_int (z : Z) : Decimal :=
  mkDecimal (Z.ltb z 0) (Z.abs_N z) 0.

(** Number of decimal digits of a coefficient ([len(self._int)]); zero
    has one digit. *)
Fixpoint digits10_fuel (fuel : nat) (n : N) : nat :=
  match fuel with
  | O => 1
  | S fuel' => if N.ltb n 10 then 1 else S (digits10_fuel fuel' (N.div n 10))
  end.

Definition digits10 (n : N) : nat := digits10_fuel (N.to_nat (N.size n)) n.

(** Precision of the default context. *)
Definition context_prec : nat := 28.

(** [Decimal._fix] restricted to the rounding of the coefficient: a
    result with more than [context_prec] digits is rounded half-even to
    [context_prec] digits, and a carry into a new digit drops the last
    one.  [Rounded] and [Inexact] are signalled but not trapped. *)
Definition decimal_fix (d : Decimal) : Decimal :=
  let n := digits10 (dec_coef d) in
  if Nat.leb n context_prec then d
  else
    let k := N.of_nat (n - context_prec) in
    let unit := N.pow 10 k in
    let q := N.div (dec_coef d) unit in
    let r := N.modulo (dec_coef d) unit in
    let half := N.mul 5 (N.pow 10 (N.pred k)) in
    let up :=
      match N.compare r half with
      | Lt => false
      | Gt => true
      | Eq => N.odd q
      end in
    let q' := if up then N.succ q else q in
    if Nat.leb (digits10 q') context_prec
    then mkDecimal (dec_sign d) q' (dec_exp d + Z.of_N k)
    else mkDecimal (dec_sign d) (N.div q' 10) (dec_exp d + Z.of_N k + 1).

(** [Decimal.__mul__]: signs are xor-ed, coefficients multiplied,
    exponents added, and the result is fixed to the context. *)
Definition decimal_mul (a b : Decimal) : Decimal :=
  decimal_fix
    (mkDecimal (xorb (dec_sign a) (dec_sign b))
               (N.mul (dec_coef a) (dec_coef b))
               (dec_exp a + dec_exp b)).

(** [z * d] with an int on the left: [Decimal.__rmul__] converts the int
    and multiplies. *)
Definition int_mul_decimal (z : Z) (d : Decimal) : Decimal :=
  decimal_mul d (decimal_of_int z).

(** [float(d)]: the binary64 value nearest to the decimal (ties to even),
    with the sign of a zero kept. *)
Definition float_of_decimal (d : Decimal) : float :=
  match dec_coef d with
  | N0 => S754_zero (dec_sign d)
  | Npos m =>
      match dec_exp d with
      | Zneg e =>
          SFdiv prec emax
                (S754_finite (dec_sign d) m 0)
                (S754_finite false (Pos.pow 10 e) 0)
      | Z0 => binary_round prec emax (dec_sign d) m 0
      | Zpos e => binary_round prec emax (dec_sign d) (Pos.mul m (Pos.pow 10 e)) 0
      end
  end.

(** A float literal of the source, written as its decimal digits. *)
Definition float_literal (coef : N) (exp : Z) : float :=
  float_of_decimal (mkDecimal false coef exp).

End Py.


(** ** Python values, exceptions, dictionaries *)

Module Value.

(** The immediate values held by the dictionaries of the views. *)
Inductive scalar : Type :=
  | SBool (b : bool)
  | SInt (z : Z)
  | SFloat (f : Py.float)
  | SStr (s : string).

(** A JSON document as [json.loads] returns it and [jsonify] takes it:
    [None], immediates, lists, and dicts with string keys. *)
Inductive json : Type :=
  | JNull
  | JAtom (a : scalar)
  | JList (l : list json)
  | JObject (d : list (string * json)).

Definition JBool (b : bool) : json := JAtom (SBool b).
Definition JInt (z : Z) : json := JAtom (SInt z).
Definition JStr (s : string) : json := JAtom (SStr s).

(** The exceptions the modelled code can raise or catch. *)
Inductive exn : Type :=
  | ValueError (msg : string)
  | KeyError (key : string)
  | TypeError
  | AttributeError
  | HTTPException (code : Z)
  | SystemError.

Inductive outcome (A : Type) : Type :=
  | Return (a : A)
  | Raise (e : exn).
Arguments Return {A} a.
Arguments Raise {A} e.

(** *** Dictionaries with string keys, in insertion order *)

Fixpoint dict_get {V : Type} (k : string) (d : list (string * V)) : option V :=
  match d with
  | [] => None
  | (k', v) :: d' => if String.eqb k k' then Some v else dict_get k d'
  end.

(** [k in d] *)
Definition dict_contains {V : Type} (k : string) (d : list (string * V)) : bool :=
  match dict_get k d with
  | Some _ => true
  | None => false
  end.

(** [d[k] = v]: an existing key keeps its position, a new key goes last. *)
Fixpoint dict_set {V : Type} (k : string) (v : V) (d : list (string * V))
  : list (string * V) :=
  match d with
  | [] => [(k, v)]
  | (k', v') :: d' =>
      if String.eqb k k' then (k, v) :: d' else (k', v') :: dict_set k v d'
  end.

(** *** Truth value testing *)

Definition scalar_bool (a : scalar) : bool :=
  match a with
  | SBool b => b
  | SInt z => negb (Z.eqb z 0)
  | SFloat f => Py.float_bool f
  | SStr s => negb (String.eqb s "")
  end.

(** [bool(v)]: [None], [False], zero, and the empty string, list and dict
    are falsy. *)
Definition truthy (v : json) : bool :=
  match v with
  | JNull => false
  | JAtom a => scalar_bool a
  | JList l => match l with [] => false | _ => true end
  | JObject d => match d with [] => false | _ => true end
  end.

(** *** Ordering of immediates: [a <= b] *)

Definition int_of_bool (b : bool) : Z := if b then 1 else 0.

(** The exact value of a finite float's significand, signed. *)
Definition signed (s : bool) (m : positive) : Z := if s then Zneg m else Zpos m.

(** Python compares an int with a float by their exact values. *)
Definition int_le_float (z : Z) (f : Py.float) : bool :=
  match f with
  | S754_nan => false
  | S754_infinity s => negb s
  | S754_zero _ => Z.leb z 0
  | S754_finite s m e =>
      match e with
      | Zneg k => Z.leb (z * Z.pow 2 (Zpos k)) (signed s m)
      | _ => Z.leb z (signed s m * Z.pow 2 e)
      end
  end.

Definition float_le_int (f : Py.float) (z : Z) : bool :=
  match f with
  | S754_nan => false
  | S754_infinity s => s
  | S754_zero _ => Z.leb 0 z
  | S754_finite s m e =>
      match e with
      | Zneg k => Z.leb (signed s m) (z * Z.pow 2 (Zpos k))
      | _ => Z.leb (signed s m * Z.pow 2 e) z
      end
  end.

(** The numeric view of an immediate: [bool] is a subclass of [int]. *)
Inductive number : Type :=
  | NInt (z : Z)
  | NFloat (f : Py.float).

Definition as_number (a : scalar) : option number :=
  match a with
  | SBool b => Some (NInt (int_of_bool b))
  | SInt z => Some (NInt z)
  | SFloat f => Some (NFloat f)
  | SStr _ => None
  end.

Definition number_le (x y : number) : bool :=
  match x, y with
  | NInt a, NInt b => Z.leb a b
  | NInt a, NFloat g => int_le_float a g
  | NFloat f, NInt b => float_le_int f b
  | NFloat f, NFloat g => SFleb f g
  end.

(** [a <= b]: numbers are compared by value, strings lexicographically
    (byte order of UTF-8 is code point order), and a number against a
    string raises [TypeError]. *)
Definition py_le (a b : scalar) : outcome bool :=
  match a, b with
  | SStr s, SStr t => Return (String.leb s t)
  | _, _ =>
      match as_number a, as_number b with
      | Some x, Some y => Return (number_le x y)
      | _, _ => Raise TypeError
      end
  end.

(** *** Membership and [.get] on a parsed JSON value *)

Fixpoint is_prefix (p s : string) : bool :=
  match p, s with
  | EmptyString, _ => true
  | String a p', String b s' => Ascii.eqb a b && is_prefix p' s'
  | String _ _, EmptyString => false
  end.

(** [p in s] for two strings. *)
Fixpoint is_substring (p s : string) : bool :=
  is_prefix p s ||
  match s with
  | EmptyString => false
  | String _ s' => is_substring p s'
  end.

(** [k == v] for a string [k]. *)
Definition str_eq (k : string) (v : json) : bool :=
  match v with
  | JAtom (SStr s) => String.eqb k s
  | _ => false
  end.

(** [k in v] for a string [k]: key membership on a dict, element
    membership on a list, substring on a string; [None] and numbers are
    not iterable. *)
Definition py_contains (k : string) (v : json) : outcome bool :=
  match v with
  | JObject d => Return (dict_contains k d)
  | JList l => Return (existsb (str_eq k) l)
  | JAtom (SStr s) => Return (is_substring k s)
  | _ => Raise TypeError
  end.

(** [v.get(k)]: only a dict has the method; a missing key gives [None]. *)
Definition py_get (k : string) (v : json) : outcome json :=
  match v with
  | JObject d => Return (match dict_get k d with Some x => x | None => JNull end)
  | _ => Raise AttributeError
  end.

(** *** [datetime] *)

(** A naive [datetime]: year 1..9999, month 1..12, day 1..31, hour 0..23,
    minute and second 0..59, microsecond 0..999999. *)
Record datetime : Type := mkDatetime {
  year : nat;
  month : nat;
  day : nat;
  hour : nat;
  minute : nat;
  second : nat;
  microsecond : nat
}.

Definition digit (n : nat) : ascii := ascii_of_nat (48 + n mod 10).

(** The last [width] decimal digits of [n], zero-padded ([%0<width>d] for
    a value below [10^width]). *)
Fixpoint zfill (width : nat) (n : nat) : string :=
  match width with
  | O => EmptyString
  | S w => zfill w (n / 10) ++ String (digit n) EmptyString
  end.

(** [datetime.isoformat()]: [YYYY-MM-DDTHH:MM:SS], followed by [.ffffff]
    when the microsecond is not zero. *)
Definition isoformat (t : datetime) : string :=
  zfill 4 (year t) ++ "-" ++ zfill 2 (month t) ++ "-" ++ zfill 2 (day t)
  ++ "T" ++ zfill 2 (hour t) ++ ":" ++ zfill 2 (minute t) ++ ":"
  ++ zfill 2 (second t)
  ++ (if Nat.eqb (microsecond t) 0 then "" else "." ++ zfill 6 (microsecond t)).

End Value.

(** ** State and exceptions *)

Module Eff.
Import Value.

(** A computation over a state [S] that returns or raises.  The state is
    returned in both cases: what was assigned before a [raise] stays
    assigned. *)
Definition M (S A : Type) : Type := S -> outcome A * S.

Definition ret {S A : Type} (a : A) : M S A := fun s => (Return a, s).

Definition bind {S A B : Type} (m : M S A) (k : A -> M S B) : M S B :=
  fun s =>
    match m s with
    | (Return a, s') => k a s'
    | (Raise e, s') => (Raise e, s')
    end.

Definition raise {S A : Type} (e : exn) : M S A := fun s => (Raise e, s).

Definition get {S : Type} : M S S := fun s => (Return s, s).

Definition modify {S : Type} (f : S -> S) : M S unit := fun s => (Return tt, f s).

(** Evaluation of an expression that touches no state. *)
Definition eval {S A : Type} (o : outcome A) : M S A := fun s => (o, s).

(** [try: body except Exception as e: handler(e)] *)
Definition try_except {S A : Type} (body : M S A) (handler : exn -> M S A) : M S A :=
  fun s =>
    match body s with
    | (Return a, s') => (Return a, s')
    | (Raise e, s') => handler e s'
    end.

#[global] Instance M_ret (S : Type) : MRet (M S) := @ret S.
#[global] Instance M_bind (S : Type) : MBind (M S) := fun A B k m => bind m k.

(** [for x in xs: body(x)] *)
Fixpoint for_each {S A : Type} (xs : list A) (body : A -> M S unit) : M S unit :=
  match xs with
  | [] => ret tt
  | x :: xs' => body x ;; for_each xs' body
  end.

(** [[f(x) for x in xs]] *)
Fixpoint map_m {S A B : Type} (f : A -> M S B) (xs : list A) : M S (list B) :=
  match xs with
  | [] => ret []
  | x :: xs' => y ← f x; ys ← map_m f xs'; ret (y :: ys)
  end.

End Eff.

(** ** [backend/models.py] *)

Module Models.
Import Value Eff.

(** The columns of [Component].  [id], [created_at] and [updated_at] are
    [None] until the row is flushed; [quantity] and [low_threshold] are
    non-null integers; [unit_price] is a nullable [Numeric(10, 2)], a
    [Decimal] on the Python side. *)
Record Component : Type := mkComponent {
  id : option Z;
  name : string;
  part_number : string;
  category : string;
  quantity : Z;
  location : option string;
  unit_price : option Py.Decimal;
  low_threshold : Z;
  created_at : option datetime;
  updated_at : option datetime;
  description : option string;
  manufacturer : option string;
  datasheet_url : option string
}.

(** [Component.__init__] *)
Definition init (name part_number category : string) (quantity : Z)
    (location : option string) (unit_price : option Py.Decimal)
    (low_threshold : Z) (description manufacturer datasheet_url : option string)
  : Component :=
  mkComponent None name part_number category quantity location unit_price
              low_threshold None None description manufacturer datasheet_url.

(** [self.quantity = q] *)
Definition set_quantity (q : Z) (self : Component) : Component :=
  mkComponent (id self) (name self) (part_number self) (category self) q
              (location self) (unit_price self) (low_threshold self)
              (created_at self) (updated_at self) (description self)
              (manufacturer self) (datasheet_url self).

(** [self.updated_at = t] *)
Definition set_updated_at (t : datetime) (self : Component) : Component :=
  mkComponent (id self) (name self) (part_number self) (category self)
              (quantity self) (location self) (unit_price self)
              (low_threshold self) (created_at self) (Some t)
              (description self) (manufacturer self) (datasheet_url self).

(** [Component.is_low_stock] *)
Definition is_low_stock (self : Component) : bool :=
  Z.leb (quantity self) (low_threshold self).

(** [Component.get_total_value]: [None], or the float of the decimal
    product. *)
Definition get_total_value (self : Component) : option Py.float :=
  match unit_price self with
  | None => None
  | Some price => Some (Py.float_of_decimal (Py.int_mul_decimal (quantity self) price))
  end.

Definition json_of_option {A : Type} (f : A -> json) (o : option A) : json :=
  match o with
  | Some a => f a
  | None => JNull
  end.

Definition JFloat (f : Py.float) : json := JAtom (SFloat f).

(** [x.isoformat() if x else None]: a [datetime] is always truthy. *)
Definition isoformat_or_none (o : option datetime) : json :=
  json_of_option (fun t => JStr (isoformat t)) o.

(** [float(self.unit_price) if self.unit_price else None]: the test is on
    the truth value of the price, so [None] and a zero decimal both give
    [None]. *)
Definition unit_price_json (o : option Py.Decimal) : json :=
  match o with
  | Some price =>
      if Py.decimal_bool price then JFloat (Py.float_of_decimal price) else JNull
  | None => JNull
  end.

(** [Component.to_dict] *)
Definition to_dict (self : Component) : list (string * json) :=
  [ ("id", json_of_option JInt (id self));
    ("name", JStr (name self));
    ("part_number", JStr (part_number self));
    ("category", JStr (category self));
    ("quantity", JInt (quantity self));
    ("location", json_of_option JStr (location self));
    ("unit_price", unit_price_json (unit_price self));
    ("low_threshold", JInt (low_threshold self));
    ("description", json_of_option JStr (description self));
    ("manufacturer", json_of_option JStr (manufacturer self));
    ("datasheet_url", json_of_option JStr (datasheet_url self));
    ("created_at", isoformat_or_none (created_at self));
    ("updated_at", isoformat_or_none (updated_at self));
    ("low_stock", JBool (is_low_stock self));
    ("total_value", json_of_option JFloat (get_total_value self)) ].

(** The mutators run on [self]; [now] is what [datetime.utcnow()] returns
    during the call. *)

(** [Component.update_quantity] *)
Definition update_quantity (now : datetime) (new_quantity : Z) : M Component unit :=
  if Z.ltb new_quantity 0
  then raise (ValueError "Quantity cannot be negative")
  else
    modify (set_quantity new_quantity) ;;
    modify (set_updated_at now).

(** [Component.add_stock] *)
Definition add_stock (now : datetime) (amount : Z) : M Component unit :=
  if Z.ltb amount 0
  then raise (ValueError "Cannot add negative stock")
  else
    modify (fun self => set_quantity (quantity self + amount) self) ;;
    modify (set_updated_at now).

(** [Component.remove_stock] *)
Definition remove_stock (now : datetime) (amount : Z) : M Component unit :=
  if Z.ltb amount 0
  then raise (ValueError "Cannot remove negative stock")
  else
    self ← get;
    if Z.gtb amount (quantity self)
    then raise (ValueError "Cannot remove more stock than available")
    else
      modify (fun self => set_quantity (quantity self - amount) self) ;;
      modify (set_updated_at now).

(** A call of one of the three stock mutators. *)
Inductive stock_call : Type :=
  | UpdateQuantity (new_quantity : Z)
  | AddStock (amount : Z)
  | RemoveStock (amount : Z).

Definition call (now : datetime) (c : stock_call) : M Component unit :=
  match c with
  | UpdateQuantity q => update_quantity now q
  | AddStock a => add_stock now a
  | RemoveStock a => remove_stock now a
  end.

(** A caller that makes the calls in turn, each at its own time, and
    carries on after a [ValueError]. *)
Fixpoint run_calls (cs : list (datetime * stock_call)) (self : Component) : Component :=
  match cs with
  | [] => self
  | (now, c) :: cs' => run_calls cs' (snd (call now c self))
  end.

End Models.

(** ** [backend/app.py] *)

Module App.
Import Value Eff.

(** *** The process: object store, log output, clock *)

(** A record handed to [logger]: the pieces of the f-string, with the
    formatted values left as values. *)
Inductive fragment : Type :=
  | Text (s : string)
  | Format (v : json)
  | FormatExn (e : exn).

Inductive level : Type := INFO | ERROR.

Record log_record : Type := mkLogRecord {
  levelname : level;
  message : list fragment
}.

(** The state a request runs in.  [objects] holds the dict objects that
    are mutated in place, indexed by address; an object is never moved
    or freed.  [log] is what [logger] has written so far.  [clock] is
    the time [datetime.utcnow()] reports. *)
Record process : Type := mkProcess {
  objects : list (list (string * scalar));
  log : list log_record;
  clock : datetime
}.

Definition address : Type := nat.

(** Evaluation of a dict display: a new object at a fresh address. *)
Definition new_dict (d : list (string * scalar)) : M process address :=
  fun p =>
    (Return (length (objects p)),
     mkProcess (objects p ++ [d]) (log p) (clock p)).

(** The object at an address.  Addresses only come from [new_dict], so
    the [SystemError] of a missing object does not arise. *)
Definition deref (a : address) : M process (list (string * scalar)) :=
  fun p =>
    match objects p !! a with
    | Some d => (Return d, p)
    | None => (Raise SystemError, p)
    end.

(** [a[k]] *)
Definition getitem (a : address) (k : string) : M process scalar :=
  d ← deref a;
  match dict_get k d with
  | Some v => ret v
  | None => raise (KeyError k)
  end.

(** [a[k] = v] *)
Definition setitem (a : address) (k : string) (v : scalar) : M process unit :=
  d ← deref a;
  modify (fun p => mkProcess (<[a := dict_set k v d]> (objects p)) (log p) (clock p)).

Definition emit (l : level) (m : list fragment) : M process unit :=
  modify (fun p => mkProcess (objects p) (log p ++ [mkLogRecord l m]) (clock p)).

(** [logger.info], [logger.error]; the root logger is configured at
    level [INFO], so both are written. *)
Definition logger_info (m : list fragment) : M process unit := emit INFO m.
Definition logger_error (m : list fragment) : M process unit := emit ERROR m.

(** [datetime.utcnow()] *)
Definition utcnow : M process datetime :=
  fun p => (Return (clock p), p).

(** *** Requests and responses *)

(** What a view sees of [flask.request]: the method, the path, and what
    [request.get_json()] does, which is to return the parsed body
    ([None] included) or to raise an HTTP error on a body it rejects. *)
Record request : Type := mkRequest {
  method : string;
  path : string;
  get_json : outcome json
}.

(** The payload of a response: the welcome page of [home], a JSON
    document, the page Werkzeug renders for an HTTP error that has no
    handler, or nothing. *)
Inductive payload : Type :=
  | WelcomePage
  | Json (doc : json)
  | ErrorPage
  | NoBody.

(** A response object: what the application hands to the WSGI layer. *)
Record response : Type := mkResponse {
  body : payload;
  status : Z
}.

(** [jsonify(d), code] for a dict [d] of JSON values. *)
Definition jsonify (d : list (string * json)) (code : Z) : response :=
  mkResponse (Json (JObject d)) code.

(** *** The views *)

(** [home] *)
Definition home : M process response :=
  ret (mkResponse WelcomePage 200).

(** [health_check] *)
Definition health_check : M process response :=
  now ← utcnow;
  ret (jsonify [ ("status", JStr "healthy");
                 ("timestamp", JStr (isoformat now));
                 ("service", JStr "Electronics Lab Inventory LIMS") ] 200).

(** [not data or 'username' not in data or 'password' not in data],
    evaluated left to right with short circuit. *)
Definition credentials_missing (data : json) : outcome bool :=
  if negb (truthy data) then Return true
  else
    match py_contains "username" data with
    | Raise e => Raise e
    | Return false => Return true
    | Return true =>
        match py_contains "password" data with
        | Raise e => Raise e
        | Return has_password => Return (negb has_password)
        end
    end.

Definition internal_server_error : response :=
  jsonify [ ("error", JStr "Internal server error") ] 500.

(** [login] *)
Definition login (req : request) : M process response :=
  try_except
    (data ← eval (get_json req);
     missing ← eval (credentials_missing data);
     if (missing : bool)
     then ret (jsonify [ ("error", JStr "Username and password required") ] 400)
     else
       username ← eval (py_get "username" data);
       let response_data :=
         [ ("success", JBool true);
           ("message", JStr "Login successful");
           ("user", JObject [ ("id", JInt 1);
                              ("username", username);
                              ("role", JStr "admin") ]);
           ("token", JStr "dummy-jwt-token-replace-with-real-implementation") ] in
       logged ← eval (py_get "username" data);
       logger_info [ Text "Login attempt for user: "; Format logged ] ;;
       ret (jsonify response_data 200))
    (fun e =>
       logger_error [ Text "Login error: "; FormatExn e ] ;;
       ret internal_server_error).

(** The three dict displays of [dummy_components]. *)
Definition arduino : list (string * scalar) :=
  [ ("id", SInt 1);
    ("name", SStr "Arduino Uno R3");
    ("part_number", SStr "ARD-UNO-R3");
    ("category", SStr "Microcontrollers");
    ("quantity", SInt 15);
    ("location", SStr "Shelf A1");
    ("unit_price", SFloat (Py.float_literal 2599 (-2)));
    ("low_threshold", SInt 5) ].

Definition resistor : list (string * scalar) :=
  [ ("id", SInt 2);
    ("name", SStr "Resistor 220Ω");
    ("part_number", SStr "RES-220-1/4W");
    ("category", SStr "Passive Components");
    ("quantity", SInt 100);
    ("location", SStr "Drawer B2");
    ("unit_price", SFloat (Py.float_literal 5 (-2)));
    ("low_threshold", SInt 20) ].

Definition led : list (string * scalar) :=
  [ ("id", SInt 3);
    ("name", SStr "LED Red 5mm");
    ("part_number", SStr "LED-RED-5MM");
    ("category", SStr "LEDs");
    ("quantity", SInt 3);
    ("location", SStr "Drawer C1");
    ("unit_price", SFloat (Py.float_literal 15 (-2)));
    ("low_threshold", SInt 10) ].

(** [component['low_stock'] = component['quantity'] <= component['low_threshold']] *)
Definition add_low_stock_warning (component : address) : M process unit :=
  q ← getitem component "quantity";
  t ← getitem component "low_threshold";
  b ← eval (py_le q t);
  setitem component "low_stock" (SBool b).

(** [sum(1 for c in cs if c['low_stock'])], accumulated from [0]. *)
Fixpoint sum_low_stock (cs : list address) (acc : Z) : M process Z :=
  match cs with
  | [] => ret acc
  | c :: cs' =>
      flag ← getitem c "low_stock";
      sum_low_stock cs' (if scalar_bool flag then acc + 1 else acc)
  end.

(** The serialisation of a referenced dict: its contents when [jsonify]
    walks the response. *)
Definition dump (a : address) : M process json :=
  d ← deref a;
  ret (JObject (map (fun kv => (fst kv, JAtom (snd kv))) d)).

(** [get_components] *)
Definition get_components : M process response :=
  try_except
    (c1 ← new_dict arduino;
     c2 ← new_dict resistor;
     c3 ← new_dict led;
     let dummy_components := [c1; c2; c3] in
     for_each dummy_components add_low_stock_warning ;;
     low_stock_count ← sum_low_stock dummy_components 0;
     let total_count := Z.of_nat (length dummy_components) in
     logger_info [ Text "Retrieved ";
                   Format (JInt (Z.of_nat (length dummy_components)));
                   Text " components" ] ;;
     components ← map_m dump dummy_components;
     ret (jsonify [ ("success", JBool true);
                    ("components", JList components);
                    ("total_count", JInt total_count);
                    ("low_stock_count", JInt low_stock_count) ] 200))
    (fun e =>
       logger_error [ Text "Components retrieval error: "; FormatExn e ] ;;
       ret internal_server_error).

(** *** Error handlers *)

(** [not_found], registered for 404. *)
Definition not_found (error : exn) : M process response :=
  ret (jsonify [ ("error", JStr "Endpoint not found") ] 404).

(** [internal_error], registered for 500. *)
Definition internal_error (error : exn) : M process response :=
  ret (jsonify [ ("error", JStr "Internal server error") ] 500).

(** *** Routing: [register_routes] *)

Inductive endpoint : Type :=
  | ep_home
  | ep_health_check
  | ep_login
  | ep_get_components.

Record rule : Type := mkRule {
  rule_path : string;
  rule_methods : list string;
  rule_endpoint : endpoint
}.

(** [Flask.add_url_rule] with Werkzeug's [Rule]: to the methods of the
    decorator, [HEAD] is added when [GET] is among them, and [OPTIONS]
    for the automatic answer. *)
Definition add_url_rule (rule_path : string) (methods : list string)
    (e : endpoint) : rule :=
  mkRule rule_path
         (methods
          ++ (if existsb (String.eqb "GET") methods then ["HEAD"] else [])
          ++ ["OPTIONS"])
         e.

(** The rules added by the [@app.route] decorators, in order. *)
Definition url_map : list rule :=
  [ add_url_rule "/" ["GET"] ep_home;
    add_url_rule "/health" ["GET"] ep_health_check;
    add_url_rule "/login" ["POST"] ep_login;
    add_url_rule "/components" ["GET"] ep_get_components ].

Definition view_functions (e : endpoint) (req : request) : M process response :=
  match e with
  | ep_home => home
  | ep_health_check => health_check
  | ep_login => login req
  | ep_get_components => get_components
  end.

(** The handlers installed by [@app.errorhandler]. *)
Definition error_handler_spec (code : Z) : option (exn -> M process response) :=
  if Z.eqb code 404 then Some not_found
  else if Z.eqb code 500 then Some internal_error
  else None.

(** [app.config['DEBUG'] = True] in [create_app]. *)
Definition DEBUG : bool := true.

(** Flask's treatment of an exception that reaches it: an HTTP error goes
    to the handler registered for its code, or is rendered as its own
    page; any other exception is re-raised when the application runs in
    debug mode, and goes to the 500 handler otherwise. *)
Definition handle_user_exception (e : exn) : M process response :=
  match e with
  | HTTPException code =>
      match error_handler_spec code with
      | Some handler => handler e
      | None => ret (mkResponse ErrorPage code)
      end
  | _ => if DEBUG then raise e else internal_error e
  end.

Section Dispatch.

(** Werkzeug's matching of a method and a path against the rules: the
    endpoint of the matching rule, or the routing exception it raises
    ([NotFound] 404, [MethodNotAllowed] 405, [RequestRedirect] 308).
    The matching algorithm belongs to the framework and is a parameter
    here. *)
Variable url_match : list rule -> string -> string -> outcome endpoint.

(** [Flask.full_dispatch_request]: routing, the automatic answer to
    [OPTIONS], the view, and the handling of what is raised. *)
Definition full_dispatch_request (req : request) : M process response :=
  try_except
    (e ← eval (url_match url_map (method req) (path req));
     if String.eqb (method req) "OPTIONS"
     then ret (mkResponse NoBody 200)
     else view_functions e req)
    handle_user_exception.

(** A request arriving at a given time. *)
Record arrival : Type := mkArrival {
  arrival_time : datetime;
  arrival_request : request
}.

Definition set_clock (t : datetime) (p : process) : process :=
  mkProcess (objects p) (log p) t.

(** The process after serving a sequence of requests. *)
Fixpoint serve_all (events : list arrival) (p : process) : process :=
  match events with
  | [] => p
  | ev :: events' =>
      serve_all events'
                (snd (full_dispatch_request (arrival_request ev)
                                            (set_clock (arrival_time ev) p)))
  end.

End Dispatch.

(** A matcher for rules without converters: the first rule with the
    request's path decides, by its methods.  It stands for Werkzeug's
    matcher on paths that need no normalisation. *)
Fixpoint match_exact (rules : list rule) (m p : string) : outcome endpoint :=
  match rules with
  | [] => Raise (HTTPException 404)
  | r :: rules' =>
      if String.eqb p (rule_path r)
      then if existsb (String.eqb m) (rule_methods r)
           then Return (rule_endpoint r)
           else Raise (HTTPException 405)
      else match_exact rules' m p
  end.

End App.

(** ** [backend/config.py] *)

Module Config.
Import Value.

(** [datetime.timedelta], normalised to days and seconds of the day. *)
Record timedelta : Type := mkTimedelta {
  days : Z;
  seconds : Z
}.

(** [timedelta(days=d, hours=h)] *)
Definition timedelta_of (d h : Z) : timedelta :=
  let total := d * 86400 + h * 3600 in
  mkTimedelta (total / 86400) (total mod 86400).

(** The value of a class attribute. *)
Inductive setting : Type :=
  | SetNone
  | SetBool (b : bool)
  | SetInt (z : Z)
  | SetStr (s : string)
  | SetList (l : list string)
  | SetSet (s : gset string)
  | SetTimedelta (t : timedelta).

(** A class: its own attributes in order of assignment, and its base. *)
Inductive pyclass : Type :=
  | Class (class_name : string) (attrs : list (string * setting)) (base : option pyclass).

(** Attribute lookup along the bases; [None] is [AttributeError]. *)
Fixpoint getattr (c : pyclass) (k : string) : option setting :=
  match c with
  | Class _ attrs base =>
      match dict_get k attrs with
      | Some v => Some v
      | None =>
          match base with
          | Some b => getattr b k
          | None => None
          end
      end
  end.

(** [os.environ.get(k) or default]: the default replaces a missing
    variable and an empty one. *)
Definition get_or (environ : gmap string string) (k default : string) : string :=
  match environ !! k with
  | Some v => if String.eqb v "" then default else v
  | None => default
  end.

(** [os.environ.get(k, default)]: the default replaces a missing
    variable only. *)
Definition get_default (environ : gmap string string) (k default : string) : string :=
  match environ !! k with
  | Some v => v
  | None => default
  end.

(** [os.environ.get(k)] as an attribute value. *)
Definition get_setting (environ : gmap string string) (k : string) : setting :=
  match environ !! k with
  | Some v => SetStr v
  | None => SetNone
  end.

(** [s.split(sep)] for a separator of one character: one piece more than
    there are separators, empty pieces included. *)
Fixpoint split (sep : ascii) (s : string) : list string :=
  match s with
  | EmptyString => [EmptyString]
  | String c s' =>
      if Ascii.eqb c sep then EmptyString :: split sep s'
      else
        match split sep s' with
        | [] => [String c EmptyString]
        | piece :: pieces => String c piece :: pieces
        end
  end.

(** [int(os.environ.get(k, default))] with an int default: the default is
    taken as it is, a variable that is set goes through [int], which
    raises [ValueError] on what it cannot read.  [int] on strings is the
    parameter [int_of_str]. *)
Definition get_int (int_of_str : string -> outcome Z)
    (environ : gmap string string) (k : string) (default : Z) : outcome Z :=
  match environ !! k with
  | Some v => int_of_str v
  | None => Return default
  end.

#[global] Instance outcome_ret : MRet outcome := @Return.
#[global] Instance outcome_bind : MBind outcome :=
  fun A B k o =>
    match o with
    | Return a => k a
    | Raise e => Raise e
    end.

(** The body of [class Config]. *)
Definition Config_body (int_of_str : string -> outcome Z)
    (environ : gmap string string) : outcome (list (string * setting)) :=
  items_per_page ← get_int int_of_str environ "ITEMS_PER_PAGE" 20;
  max_items_per_page ← get_int int_of_str environ "MAX_ITEMS_PER_PAGE" 100;
  mret
    [ ("SECRET_KEY",
       SetStr (get_or environ "SECRET_KEY" "dev-secret-key-change-in-production"));
      ("SQLALCHEMY_DATABASE_URI",
       SetStr (get_or environ "DATABASE_URL" "sqlite:///lims.db"));
      ("SQLALCHEMY_TRACK_MODIFICATIONS", SetBool false);
      ("SQLALCHEMY_ECHO", SetBool false);
      ("JWT_SECRET_KEY",
       SetStr (get_or environ "JWT_SECRET_KEY" "jwt-secret-change-in-production"));
      ("JWT_ACCESS_TOKEN_EXPIRES", SetTimedelta (timedelta_of 0 1));
      ("JWT_REFRESH_TOKEN_EXPIRES", SetTimedelta (timedelta_of 30 0));
      ("CORS_ORIGINS", SetList (split "," (get_default environ "CORS_ORIGINS" "*")));
      ("ITEMS_PER_PAGE", SetInt items_per_page);
      ("MAX_ITEMS_PER_PAGE", SetInt max_items_per_page);
      ("MAX_CONTENT_LENGTH", SetInt (16 * 1024 * 1024));
      ("UPLOAD_FOLDER", SetStr (get_default environ "UPLOAD_FOLDER" "uploads"));
      ("ALLOWED_EXTENSIONS",
       SetSet (list_to_set [ "txt"; "pdf"; "png"; "jpg"; "jpeg"; "gif"; "csv"; "xlsx" ])) ].

(** The body of [class DevelopmentConfig]. *)
Definition DevelopmentConfig_body : list (string * setting) :=
  [ ("DEBUG", SetBool true);
    ("SQLALCHEMY_ECHO", SetBool true) ].

(** The body of [class TestingConfig]. *)
Definition TestingConfig_body : list (string * setting) :=
  [ ("TESTING", SetBool true);
    ("SQLALCHEMY_DATABASE_URI", SetStr "sqlite:///:memory:");
    ("WTF_CSRF_ENABLED", SetBool false) ].

(** [not x] for a value of [os.environ.get]. *)
Definition unset (environ : gmap string string) (k : string) : bool :=
  match environ !! k with
  | Some v => String.eqb v ""
  | None => true
  end.

(** The body of [class ProductionConfig], with its two checks. *)
Definition ProductionConfig_body (environ : gmap string string)
  : outcome (list (string * setting)) :=
  if unset environ "SECRET_KEY"
  then Raise (ValueError "No SECRET_KEY set for production environment")
  else if unset environ "JWT_SECRET_KEY"
       then Raise (ValueError "No JWT_SECRET_KEY set for production environment")
       else
         Return
           [ ("DEBUG", SetBool false);
             ("SQLALCHEMY_ECHO", SetBool false);
             ("SECRET_KEY", get_setting environ "SECRET_KEY");
             ("JWT_SECRET_KEY", get_setting environ "JWT_SECRET_KEY");
             ("SQLALCHEMY_DATABASE_URI", get_setting environ "DATABASE_URL") ].

(** The names the module defines. *)
Record module : Type := mkModule {
  Config : pyclass;
  DevelopmentConfig : pyclass;
  TestingConfig : pyclass;
  ProductionConfig : pyclass;
  config : list (string * pyclass)
}.

(** The execution of the module, top to bottom: the four class bodies,
    then the [config] dict. *)
Definition import (int_of_str : string -> outcome Z)
    (environ : gmap string string) : outcome module :=
  base ← Config_body int_of_str environ;
  let Config := Class "Config" base None in
  let DevelopmentConfig := Class "DevelopmentConfig" DevelopmentConfig_body (Some Config) in
  let TestingConfig := Class "TestingConfig" TestingConfig_body (Some Config) in
  production ← ProductionConfig_body environ;
  let ProductionConfig := Class "ProductionConfig" production (Some Config) in
  mret (mkModule Config DevelopmentConfig TestingConfig ProductionConfig
                 [ ("development", DevelopmentConfig);
                   ("testing", TestingConfig);
                   ("production", ProductionConfig);
                   ("default", DevelopmentConfig) ]).

(** A reader of plain decimal digits, for examples: one instance of
    [int] on strings. *)
Fixpoint digits_value (s : string) (acc : Z) : outcome Z :=
  match s with
  | EmptyString => Return acc
  | String c s' =>
      let n := Z.of_nat (nat_of_ascii c) in
      if Z.leb 48 n && Z.leb n 57
      then digits_value s' (acc * 10 + (n - 48))
      else Raise (ValueError "invalid literal for int() with base 10")
  end.

Definition int_of_digits (s : string) : outcome Z :=
  match s with
  | EmptyString => Raise (ValueError "invalid literal for int() with base 10")
  | _ => digits_value s 0
  end.

End Config.

(** ** Sample inputs *)

Module Sample.
Import Value.

Definition noon : datetime := mkDatetime 2024 1 2 12 0 0 0.

(** A process that has served nothing yet. *)
Definition fresh_process : App.process := App.mkProcess [] [] noon.

(** The body of [test_login_success]. *)
Definition credentials : list (string * json) :=
  [ ("username", JStr "testuser"); ("password", JStr "testpass") ].

Definition login_request : App.request :=
  App.mkRequest "POST" "/login" (Return (JObject credentials)).

(** The body of [test_login_missing_credentials]. *)
Definition username_only : list (string * json) :=
  [ ("username", JStr "testuser") ].

Definition incomplete_login_request : App.request :=
  App.mkRequest "POST" "/login" (Return (JObject username_only)).

(** The request of [test_404_not_found]. *)
Definition unknown_request : App.request :=
  App.mkRequest "GET" "/nonexistent-endpoint" (Return JNull).

(** The LED of the sample inventory as a [Component], priced 0.15. *)
Definition led_component : Models.Component :=
  Models.init "LED Red 5mm" "LED-RED-5MM" "LEDs" 3 (Some "Drawer C1")
              (Some (Py.mkDecimal false 15 (-2))) 10 None None None.

(** The same component with a price of [Decimal('0.00')]. *)
Definition free_led : Models.Component :=
  Models.init "LED Red 5mm" "LED-RED-5MM" "LEDs" 3 (Some "Drawer C1")
              (Some (Py.mkDecimal false 0 (-2))) 10 None None None.

(** An environment with the two production secrets. *)
Definition production_environ : gmap string string :=
  <["SECRET_KEY" := "s3cret"]> (<["JWT_SECRET_KEY" := "jwt-s3cret"]> ∅).

(** An environment with nothing set. *)
Definition empty_environ : gmap string string := ∅.

End Sample.

(** * Properties *)

(** ** Running store operations on objects allocated after a given store *)

Section Store.
Import Value Eff App.

Lemma bind_run {S A B : Type} (m : M S A) (k : A -> M S B) (s : S) :
  (m ≫= k) s =
  match m s with
  | (Return a, s') => k a s'
  | (Raise e, s') => (Raise e, s')
  end.
Proof. reflexivity. Qed.

Lemma new_dict_fresh (d : list (string * scalar)) old fresh lg ck :
  new_dict d (mkProcess (old ++ fresh) lg ck) =
  (Return (length old + length fresh)%nat, mkProcess (old ++ (fresh ++ [d])) lg ck).
Proof.
  unfold new_dict; cbn. rewrite length_app, <- app_assoc. reflexivity.
Qed.

Lemma deref_fresh old fresh lg ck (i : nat) d :
  fresh !! i = Some d ->
  deref (length old + i)%nat (mkProcess (old ++ fresh) lg ck) =
  (Return d, mkProcess (old ++ fresh) lg ck).
Proof.
  intros Hd. unfold deref; cbn.
  rewrite lookup_app_r by lia.
  replace (length old + i - length old)%nat with i by lia.
  rewrite Hd. reflexivity.
Qed.

Lemma getitem_fresh old fresh lg ck (i : nat) k d v :
  fresh !! i = Some d ->
  dict_get k d = Some v ->
  getitem (length old + i)%nat k (mkProcess (old ++ fresh) lg ck) =
  (Return v, mkProcess (old ++ fresh) lg ck).
Proof.
  intros Hd Hv. unfold getitem. rewrite bind_run, (deref_fresh _ _ _ _ _ _ Hd), Hv.
  reflexivity.
Qed.

Lemma setitem_fresh old fresh lg ck (i : nat) k v d :
  fresh !! i = Some d ->
  setitem (length old + i)%nat k v (mkProcess (old ++ fresh) lg ck) =
  (Return tt, mkProcess (old ++ <[i := dict_set k v d]> fresh) lg ck).
Proof.
  intros Hd. unfold setitem. rewrite bind_run, (deref_fresh _ _ _ _ _ _ Hd).
  unfold modify; cbn.
  rewrite insert_app_r_alt by lia.
  replace (length old + i - length old)%nat with i by lia.
  reflexivity.
Qed.

End Store.

Section Components.
Import Value Eff App.

Lemma emit_run lv m objs lg ck :
  emit lv m (mkProcess objs lg ck) =
  (Return tt, mkProcess objs (lg ++ [mkLogRecord lv m]) ck).
Proof. reflexivity. Qed.

#[local] Arguments new_dict : simpl never.
#[local] Arguments getitem : simpl never.
#[local] Arguments setitem : simpl never.
#[local] Arguments deref : simpl never.
#[local] Arguments emit : simpl never.

(** One step of a run whose state is [old ++ fresh]. *)
Ltac store_step :=
  first
    [ rewrite new_dict_fresh
    | erewrite getitem_fresh by reflexivity
    | erewrite setitem_fresh by reflexivity
    | erewrite deref_fresh by reflexivity
    | rewrite emit_run
    | rewrite bind_run
    | progress unfold add_low_stock_warning, dump, eval ];
  cbn.

Lemma get_components_rebase old lg ck :
  get_components (mkProcess old lg ck) =
  (fst (get_components (mkProcess [] [] ck)),
   mkProcess (old ++ objects (snd (get_components (mkProcess [] [] ck))))
             (lg ++ log (snd (get_components (mkProcess [] [] ck))))
             ck).
Proof.
  remember (get_components (mkProcess [] [] ck)) as base eqn:Hbase.
  rewrite <- (app_nil_r old) at 1.
  unfold get_components, try_except, logger_info.
  repeat store_step.
  subst base. vm_compute. reflexivity.
Qed.

Lemma get_components_fst old lg ck :
  fst (get_components (mkProcess old lg ck)) =
  fst (get_components (mkProcess [] [] ck)).
Proof. rewrite get_components_rebase. reflexivity. Qed.

End Components.

(** C1.  For every request and every state of the process, the view of
    [GET /components] answers 200 with [success] true, the three fixed
    items in order (Arduino Uno R3: quantity 15, threshold 5; Resistor
    220Ω: quantity 100, threshold 20; LED Red 5mm: quantity 3,
    threshold 10), each with its [low_stock] flag (false, false, true),
    [total_count] 3 and [low_stock_count] 1. *)
Theorem get_components_fixed_inventory (p : App.process) :
  fst (App.get_components p) =
  Value.Return
    (App.mkResponse
       (App.Json
          (Value.JObject
             [ ("success", Value.JBool true);
               ("components",
                Value.JList
                  [ Value.JObject
                      [ ("id", Value.JInt 1);
                        ("name", Value.JStr "Arduino Uno R3");
                        ("part_number", Value.JStr "ARD-UNO-R3");
                        ("category", Value.JStr "Microcontrollers");
                        ("quantity", Value.JInt 15);
                        ("location", Value.JStr "Shelf A1");
                        ("unit_price", Models.JFloat (Py.float_literal 2599 (-2)));
                        ("low_threshold", Value.JInt 5);
                        ("low_stock", Value.JBool false) ];
                    Value.JObject
                      [ ("id", Value.JInt 2);
                        ("name", Value.JStr "Resistor 220Ω");
                        ("part_number", Value.JStr "RES-220-1/4W");
                        ("category", Value.JStr "Passive Components");
                        ("quantity", Value.JInt 100);
                        ("location", Value.JStr "Drawer B2");
                        ("unit_price", Models.JFloat (Py.float_literal 5 (-2)));
                        ("low_threshold", Value.JInt 20);
                        ("low_stock", Value.JBool false) ];
                    Value.JObject
                      [ ("id", Value.JInt 3);
                        ("name", Value.JStr "LED Red 5mm");
                        ("part_number", Value.JStr "LED-RED-5MM");
                        ("category", Value.JStr "LEDs");
                        ("quantity", Value.JInt 3);
                        ("location", Value.JStr "Drawer C1");
                        ("unit_price", Models.JFloat (Py.float_literal 15 (-2)));
                        ("low_threshold", Value.JInt 10);
                        ("low_stock", Value.JBool true) ] ]);
               ("total_count", Value.JInt 3);
               ("low_stock_count", Value.JInt 1) ]))
       200).
Proof.
  destruct p as [old lg ck].
  rewrite get_components_fst.
  vm_compute. reflexivity.
Qed.

(** ** What a response depends on *)

Section Responses.
Import Value Eff App.

Variable url_match : list rule -> string -> string -> outcome endpoint.

Lemma login_clock_only (req : request) (p q : process) :
  fst (login req p) = fst (login req q).
Proof.
  unfold login, try_except, eval. rewrite !bind_run.
  destruct (get_json req) as [data | e]; [ | reflexivity ].
  rewrite !bind_run.
  destruct (credentials_missing data) as [[ | ] | e]; try reflexivity.
  rewrite !bind_run.
  destruct (py_get "username" data) as [u | e]; reflexivity.
Qed.

Lemma handle_user_exception_clock_only (e : exn) (p q : process) :
  fst (handle_user_exception e p) = fst (handle_user_exception e q).
Proof.
  destruct e as [ msg | key | | | code | ]; try reflexivity.
  unfold handle_user_exception, error_handler_spec.
  destruct (Z.eqb code 404); [ reflexivity | ].
  destruct (Z.eqb code 500); reflexivity.
Qed.

(** The answer to a request is a function of the request and the clock:
    neither the objects in the store nor the log reach it. *)
Lemma full_dispatch_request_clock_only (req : request) (p q : process) :
  clock p = clock q ->
  fst (full_dispatch_request url_match req p) =
  fst (full_dispatch_request url_match req q).
Proof.
  intros Hclock.
  unfold full_dispatch_request, try_except, eval. rewrite !bind_run.
  destruct (url_match url_map (method req) (path req)) as [ep | e].
  - destruct (String.eqb (method req) "OPTIONS"); [ reflexivity | ].
    destruct ep; cbn [view_functions].
    + reflexivity.
    + unfold health_check, utcnow. rewrite !bind_run, Hclock. reflexivity.
    + pose proof (login_clock_only req p q) as Hl.
      destruct (login req p) as [[r1 | e1] p1], (login req q) as [[r2 | e2] q1];
        cbn in Hl; try discriminate; inversion Hl; subst; try reflexivity.
      apply handle_user_exception_clock_only.
    + destruct p as [o1 l1 c1], q as [o2 l2 c2]; cbn in Hclock; subst c2.
      rewrite (get_components_rebase o1), (get_components_rebase o2).
      destruct (get_components (mkProcess [] [] c1)) as [[r | e] s]; cbn;
        [ reflexivity | apply handle_user_exception_clock_only ].
  - apply handle_user_exception_clock_only.
Qed.

End Responses.

(** C7.  The view of [/components] is deterministic and stateless: after
    any sequence of requests served in between it gives the same status
    and body; a call leaves every existing object and the clock as they
    were, allocating only objects of its own and writing one log record;
    and the answer to any later request is the same as if the call had
    not been made. *)
Theorem get_components_deterministic_stateless
    (url_match : list App.rule -> string -> string -> Value.outcome App.endpoint)
    (events : list App.arrival) (p : App.process) :
  fst (App.get_components (App.serve_all url_match events p)) =
    fst (App.get_components p)
  /\ (exists fresh record,
        snd (App.get_components p) =
        App.mkProcess (App.objects p ++ fresh) (App.log p ++ [record]) (App.clock p))
  /\ (forall req : App.request,
        fst (App.full_dispatch_request url_match req (snd (App.get_components p))) =
        fst (App.full_dispatch_request url_match req p)).
Proof.
  split; [ | split ].
  - destruct (App.serve_all url_match events p) as [o1 l1 c1].
    destruct p as [o l c].
    rewrite (get_components_fst o1 l1 c1), (get_components_fst o l c).
    vm_compute. reflexivity.
  - destruct p as [o l c]. rewrite get_components_rebase.
    cbn [snd App.objects App.log App.clock].
    eexists. eexists. vm_compute. reflexivity.
  - intros req. apply full_dispatch_request_clock_only.
    destruct p as [o l c]. rewrite get_components_rebase. reflexivity.
Qed.

(** ** The other views and the error handlers *)

(** C5.  For every state of the process, the view of [GET /health]
    answers 200 with [status] equal to "healthy", a [timestamp] (the
    clock in ISO format) and [service] equal to "Electronics Lab
    Inventory LIMS", and changes nothing. *)
Theorem health_check_healthy (p : App.process) :
  App.health_check p =
  (Value.Return
     (App.mkResponse
        (App.Json
           (Value.JObject
              [ ("status", Value.JStr "healthy");
                ("timestamp", Value.JStr (Value.isoformat (App.clock p)));
                ("service", Value.JStr "Electronics Lab Inventory LIMS") ]))
        200),
   p).
Proof. reflexivity. Qed.

Section Login.
Import Value Eff App.

Lemma dict_contains_get {V : Type} (k : string) (d : list (string * V)) (v : V) :
  dict_get k d = Some v -> dict_contains k d = true.
Proof. unfold dict_contains. intros ->. reflexivity. Qed.

Lemma truthy_nonempty_object (k : string) (d : list (string * json)) :
  dict_contains k d = true -> truthy (JObject d) = true.
Proof. destruct d; [ discriminate | reflexivity ]. Qed.

Lemma credentials_missing_falsy (data : json) :
  truthy data = false -> credentials_missing data = Return true.
Proof. unfold credentials_missing. intros ->. reflexivity. Qed.

Lemma credentials_missing_object (d : list (string * json)) :
  credentials_missing (JObject d) =
  Return (negb (dict_contains "username" d && dict_contains "password" d)).
Proof.
  unfold credentials_missing.
  destruct (truthy (JObject d)) eqn:Ht; cbn [negb py_contains].
  - destruct (dict_contains "username" d); reflexivity.
  - destruct (dict_contains "username" d) eqn:Hu; [ | reflexivity ].
    rewrite (truthy_nonempty_object _ _ Hu) in Ht. discriminate.
Qed.

Lemma login_missing (req : request) (p : process) (data : json) :
  get_json req = Return data ->
  credentials_missing data = Return true ->
  login req p =
  (Return (jsonify [ ("error", JStr "Username and password required") ] 400), p).
Proof.
  intros Hj Hm. unfold login, try_except, eval.
  rewrite !bind_run, Hj, bind_run, Hm. reflexivity.
Qed.

(** A body that [get_json] rejects is answered 500. *)
Lemma login_get_json_raises (req : request) (p : process) (e : exn) :
  get_json req = Raise e ->
  fst (login req p) = Return internal_server_error.
Proof.
  intros Hj. unfold login, try_except, eval. rewrite !bind_run, Hj. reflexivity.
Qed.

(** A truthy body that is not a container ([5], [true]) makes the
    membership test raise, and is answered 500. *)
Lemma login_not_iterable (req : request) (p : process) (data : json) :
  get_json req = Return data ->
  truthy data = true ->
  py_contains "username" data = Raise TypeError ->
  fst (login req p) = Return internal_server_error.
Proof.
  intros Hj Ht Hc. unfold login, try_except, eval.
  rewrite !bind_run, Hj, bind_run.
  unfold credentials_missing. rewrite Ht, Hc. reflexivity.
Qed.

End Login.

(** The two answers of [login] on what [get_json] returns: an object
    that holds both keys is answered 200, and the [username] inside
    [user] is the submitted one; a falsy value or an object that lacks
    either key is answered 400 with the error "Username and password
    required". *)
Theorem login_credentials (req : App.request) (p : App.process) (data : Value.json) :
  App.get_json req = Value.Return data ->
  (forall (d : list (string * Value.json)) (u pw : Value.json),
      data = Value.JObject d ->
      Value.dict_get "username" d = Some u ->
      Value.dict_get "password" d = Some pw ->
      fst (App.login req p) =
      Value.Return
        (App.mkResponse
           (App.Json
              (Value.JObject
                 [ ("success", Value.JBool true);
                   ("message", Value.JStr "Login successful");
                   ("user", Value.JObject [ ("id", Value.JInt 1);
                                            ("username", u);
                                            ("role", Value.JStr "admin") ]);
                   ("token", Value.JStr "dummy-jwt-token-replace-with-real-implementation") ]))
           200))
  /\ (Value.truthy data = false
      \/ (exists d : list (string * Value.json),
             data = Value.JObject d
             /\ (Value.dict_contains "username" d = false
                 \/ Value.dict_contains "password" d = false)) ->
      fst (App.login req p) =
      Value.Return
        (App.mkResponse
           (App.Json (Value.JObject [ ("error", Value.JStr "Username and password required") ]))
           400)).
Proof.
  intros Hj. split.
  - intros d u pw -> Hu Hpw.
    unfold App.login, Eff.try_except, Eff.eval.
    rewrite !bind_run, Hj, bind_run, credentials_missing_object.
    rewrite (dict_contains_get _ _ _ Hu), (dict_contains_get _ _ _ Hpw).
    cbn. rewrite Hu. reflexivity.
  - intros [Hfalsy | (d & -> & Hlack)].
    + rewrite (login_missing req p data Hj (credentials_missing_falsy _ Hfalsy)).
      reflexivity.
    + rewrite (login_missing req p (Value.JObject d) Hj); [ reflexivity | ].
      rewrite credentials_missing_object.
      destruct Hlack as [-> | ->]; [ reflexivity | ].
      rewrite andb_false_r. reflexivity.
Qed.

Lemma login_credentials_witness :
  App.get_json Sample.login_request = Value.Return (Value.JObject Sample.credentials)
  /\ fst (App.login Sample.login_request Sample.fresh_process) =
     Value.Return
       (App.mkResponse
          (App.Json
             (Value.JObject
                [ ("success", Value.JBool true);
                  ("message", Value.JStr "Login successful");
                  ("user", Value.JObject [ ("id", Value.JInt 1);
                                           ("username", Value.JStr "testuser");
                                           ("role", Value.JStr "admin") ]);
                  ("token", Value.JStr "dummy-jwt-token-replace-with-real-implementation") ]))
          200).
Proof.
  split; [ reflexivity | ].
  exact (proj1 (login_credentials Sample.login_request Sample.fresh_process
                  (Value.JObject Sample.credentials) eq_refl)
               Sample.credentials (Value.JStr "testuser") (Value.JStr "testpass")
               eq_refl eq_refl eq_refl).
Defined.

(** C2, as the code has it.  [login] answers by what [get_json] does:
    - it returns a JSON object that holds both keys: 200, and the
      [username] inside [user] is the submitted one;
    - it returns a falsy value ([None], an empty object) or an object
      that lacks either key: 400 with the error "Username and password
      required";
    - it raises (a body it rejects), or returns a truthy number or
      [true]: the exception is caught by the view and the answer is 500
      with the error "Internal server error". *)
Theorem login_credentials_amended (req : App.request) (p : App.process) :
  (forall (d : list (string * Value.json)) (u pw : Value.json),
      App.get_json req = Value.Return (Value.JObject d) ->
      Value.dict_get "username" d = Some u ->
      Value.dict_get "password" d = Some pw ->
      fst (App.login req p) =
      Value.Return
        (App.mkResponse
           (App.Json
              (Value.JObject
                 [ ("success", Value.JBool true);
                   ("message", Value.JStr "Login successful");
                   ("user", Value.JObject [ ("id", Value.JInt 1);
                                            ("username", u);
                                            ("role", Value.JStr "admin") ]);
                   ("token", Value.JStr "dummy-jwt-token-replace-with-real-implementation") ]))
           200))
  /\ (forall data : Value.json,
        App.get_json req = Value.Return data ->
        (Value.truthy data = false
         \/ (exists d : list (string * Value.json),
                data = Value.JObject d
                /\ (Value.dict_contains "username" d = false
                    \/ Value.dict_contains "password" d = false))) ->
        fst (App.login req p) =
        Value.Return
          (App.mkResponse
             (App.Json (Value.JObject [ ("error", Value.JStr "Username and password required") ]))
             400))
  /\ (forall e : Value.exn,
        App.get_json req = Value.Raise e ->
        fst (App.login req p) =
        Value.Return
          (App.mkResponse
             (App.Json (Value.JObject [ ("error", Value.JStr "Internal server error") ]))
             500))
  /\ (forall a : Value.scalar,
        App.get_json req = Value.Return (Value.JAtom a) ->
        (forall s : string, a <> Value.SStr s) ->
        Value.scalar_bool a = true ->
        fst (App.login req p) =
        Value.Return
          (App.mkResponse
             (App.Json (Value.JObject [ ("error", Value.JStr "Internal server error") ]))
             500)).
Proof.
  split; [ | split; [ | split ] ].
  - intros d u pw Hj Hu Hpw.
    exact (proj1 (login_credentials req p (Value.JObject d) Hj) d u pw eq_refl Hu Hpw).
  - intros data Hj Hwhy.
    exact (proj2 (login_credentials req p data Hj) Hwhy).
  - intros e Hj. exact (login_get_json_raises req p e Hj).
  - intros a Hj Hnum Htrue.
    apply (login_not_iterable req p (Value.JAtom a) Hj Htrue).
    destruct a as [b | z | f | s]; try reflexivity.
    exfalso. exact (Hnum s eq_refl).
Qed.

Lemma login_credentials_amended_witness :
  fst (App.login Sample.login_request Sample.fresh_process) =
    Value.Return
      (App.mkResponse
         (App.Json
            (Value.JObject
               [ ("success", Value.JBool true);
                 ("message", Value.JStr "Login successful");
                 ("user", Value.JObject [ ("id", Value.JInt 1);
                                          ("username", Value.JStr "testuser");
                                          ("role", Value.JStr "admin") ]);
                 ("token", Value.JStr "dummy-jwt-token-replace-with-real-implementation") ]))
         200)
  /\ fst (App.login Sample.incomplete_login_request Sample.fresh_process) =
     Value.Return
       (App.mkResponse
          (App.Json (Value.JObject [ ("error", Value.JStr "Username and password required") ]))
          400)
  /\ fst (App.login (App.mkRequest "POST" "/login" (Value.Raise (Value.HTTPException 400)))
                    Sample.fresh_process) =
     Value.Return
       (App.mkResponse
          (App.Json (Value.JObject [ ("error", Value.JStr "Internal server error") ]))
          500)
  /\ fst (App.login (App.mkRequest "POST" "/login" (Value.Return (Value.JAtom (Value.SInt 5))))
                    Sample.fresh_process) =
     Value.Return
       (App.mkResponse
          (App.Json (Value.JObject [ ("error", Value.JStr "Internal server error") ]))
          500).
Proof.
  split; [ | split; [ | split ] ].
  - exact (proj1 (login_credentials_amended Sample.login_request Sample.fresh_process)
                 Sample.credentials (Value.JStr "testuser") (Value.JStr "testpass")
                 eq_refl eq_refl eq_refl).
  - apply (proj1 (proj2 (login_credentials_amended Sample.incomplete_login_request
                                                   Sample.fresh_process))
                 (Value.JObject Sample.username_only) eq_refl).
    right. exists Sample.username_only. split; [ reflexivity | right; reflexivity ].
  - exact (proj1 (proj2 (proj2
             (login_credentials_amended
                (App.mkRequest "POST" "/login" (Value.Raise (Value.HTTPException 400)))
                Sample.fresh_process)))
             (Value.HTTPException 400) eq_refl).
  - apply (proj2 (proj2 (proj2
             (login_credentials_amended
                (App.mkRequest "POST" "/login" (Value.Return (Value.JAtom (Value.SInt 5))))
                Sample.fresh_process)))
             (Value.SInt 5) eq_refl).
    + intros s Hs. discriminate Hs.
    + reflexivity.
Defined.

(** C2 as first stated fails: the JSON body [5] holds neither key, and
    [login] answers it 500, not 400. *)
Lemma login_credentials_counterexample :
  ~ (forall (req : App.request) (p : App.process),
        ~ (exists d : list (string * Value.json),
              App.get_json req = Value.Return (Value.JObject d)
              /\ Value.dict_contains "username" d = true
              /\ Value.dict_contains "password" d = true) ->
        exists r : App.response,
          fst (App.login req p) = Value.Return r /\ App.status r = 400).
Proof.
  intros Hclaim.
  destruct (Hclaim (App.mkRequest "POST" "/login" (Value.Return (Value.JInt 5)))
                   Sample.fresh_process) as (r & Hr & Hs).
  - intros (d & Hd & _). discriminate Hd.
  - assert (Hrun :
      fst (App.login (App.mkRequest "POST" "/login" (Value.Return (Value.JInt 5)))
                     Sample.fresh_process) = Value.Return App.internal_server_error)
      by reflexivity.
    rewrite Hrun in Hr. injection Hr as <-. cbn in Hs. discriminate Hs.
Qed.

(** The request of [test_login_missing_credentials] is answered 400. *)
Example login_username_only :
  fst (App.login Sample.incomplete_login_request Sample.fresh_process) =
  Value.Return
    (App.mkResponse
       (App.Json (Value.JObject [ ("error", Value.JStr "Username and password required") ]))
       400).
Proof. reflexivity. Qed.

(** A JSON body that is a number is answered 500. *)
Example login_number_body :
  fst (App.login (App.mkRequest "POST" "/login" (Value.Return (Value.JInt 5)))
                 Sample.fresh_process) =
  Value.Return App.internal_server_error.
Proof. reflexivity. Qed.

(** C6.  A request that the URL map matches with no rule is answered 404
    with the body [{"error": "Endpoint not found"}], and the process is
    left as it was. *)
Theorem unmatched_path_not_found
    (url_match : list App.rule -> string -> string -> Value.outcome App.endpoint)
    (req : App.request) (p : App.process) :
  url_match App.url_map (App.method req) (App.path req) =
    Value.Raise (Value.HTTPException 404) ->
  App.full_dispatch_request url_match req p =
  (Value.Return
     (App.mkResponse
        (App.Json (Value.JObject [ ("error", Value.JStr "Endpoint not found") ]))
        404),
   p).
Proof.
  intros Hmatch.
  unfold App.full_dispatch_request, Eff.try_except, Eff.eval.
  rewrite bind_run, Hmatch. reflexivity.
Qed.

Lemma unmatched_path_not_found_witness :
  App.match_exact App.url_map "GET" "/nonexistent-endpoint" =
    Value.Raise (Value.HTTPException 404)
  /\ App.full_dispatch_request App.match_exact Sample.unknown_request Sample.fresh_process =
     (Value.Return
        (App.mkResponse
           (App.Json (Value.JObject [ ("error", Value.JStr "Endpoint not found") ]))
           404),
      Sample.fresh_process).
Proof.
  split; [ reflexivity | ].
  apply (unmatched_path_not_found App.match_exact Sample.unknown_request
                                  Sample.fresh_process).
  reflexivity.
Defined.

(** ** Decimal products within the context precision *)

Section DecimalExact.
Import Py.

Lemma digits10_fuel_pos (fuel : nat) (n : N) : (1 <= digits10_fuel fuel n)%nat.
Proof. destruct fuel; cbn; [ lia | destruct (N.ltb n 10); lia ]. Qed.

Lemma digits10_fuel_le (fuel : nat) :
  forall (n : N) (k : nat),
    (n < 2 ^ N.of_nat fuel)%N ->
    (1 <= k)%nat ->
    (digits10_fuel fuel n <= k)%nat <-> (n < 10 ^ N.of_nat k)%N.
Proof.
  induction fuel as [ | fuel IH]; intros n k Hn Hk.
  - cbn in Hn. assert (n = 0%N) by lia. subst n. cbn.
    split; intros _; [ | lia ].
    apply N.neq_0_lt_0, N.pow_nonzero. discriminate.
  - cbn [digits10_fuel].
    assert (Hpow : (10 <= 10 ^ N.of_nat k)%N).
    { change 10%N with (10 ^ 1)%N at 1. apply N.pow_le_mono_r; lia. }
    destruct (N.ltb_spec n 10) as [Hsmall | Hbig].
    + split; intros _; lia.
    + destruct k as [ | k]; [ lia | ].
      pose proof (digits10_fuel_pos fuel (n / 10)) as Hpos.
      rewrite Nat2N.inj_succ, N.pow_succ_r' in *.
      destruct k as [ | k].
      * cbn. split; intros H; lia.
      * assert (Hdiv : (n / 10 < 2 ^ N.of_nat fuel)%N).
        { apply N.Div0.div_lt_upper_bound. lia. }
        specialize (IH (n / 10)%N (S k) Hdiv ltac:(lia)).
        rewrite Nat2N.inj_succ, N.pow_succ_r' in IH.
        rewrite Nat2N.inj_succ, N.pow_succ_r'.
        split; intros H.
        -- assert (H' : (n / 10 < 10 * 10 ^ N.of_nat k)%N) by (apply IH; lia).
           pose proof (N.Div0.mul_div_le n 10). pose proof (N.Div0.mod_eq n 10).
           pose proof (N.mod_lt n 10 ltac:(discriminate)). lia.
        -- assert (H' : (n / 10 < 10 * 10 ^ N.of_nat k)%N).
           { apply N.Div0.div_lt_upper_bound. lia. }
           apply IH in H'. lia.
Qed.

Lemma digits10_le (n : N) (k : nat) :
  (1 <= k)%nat -> (digits10 n <= k)%nat <-> (n < 10 ^ N.of_nat k)%N.
Proof.
  intros Hk. unfold digits10. apply digits10_fuel_le; [ | exact Hk ].
  rewrite N2Nat.id. apply N.size_gt.
Qed.

(** A coefficient of at most 28 digits is left alone by the context. *)
Lemma decimal_fix_exact (d : Decimal) :
  (dec_coef d < 10 ^ 28)%N -> decimal_fix d = d.
Proof.
  intros Hd. unfold decimal_fix.
  assert (Hle : (digits10 (dec_coef d) <= context_prec)%nat).
  { apply digits10_le; [ unfold context_prec; lia | exact Hd ]. }
  apply Nat.leb_le in Hle. rewrite Hle. reflexivity.
Qed.

(** The product of an int and a decimal is exact while it fits the
    context: the coefficient is multiplied by the magnitude of the int,
    the exponent is kept. *)
Lemma int_mul_decimal_exact (z : Z) (d : Decimal) :
  (dec_coef d * Z.abs_N z < 10 ^ 28)%N ->
  int_mul_decimal z d =
  mkDecimal (xorb (dec_sign d) (Z.ltb z 0)) (dec_coef d * Z.abs_N z) (dec_exp d).
Proof.
  intros Hfit. unfold int_mul_decimal, decimal_mul.
  rewrite decimal_fix_exact by exact Hfit.
  cbn. rewrite Z.add_0_r. reflexivity.
Qed.

End DecimalExact.

(** ** The [Component] model *)

Section LowStock.
Import Value Eff App.

Lemma dict_get_set_eq {V : Type} (k : string) (v : V) (d : list (string * V)) :
  dict_get k (dict_set k v d) = Some v.
Proof.
  induction d as [ | [k' v'] d IH]; cbn.
  - rewrite String.eqb_refl. reflexivity.
  - destruct (String.eqb k k') eqn:Hk; cbn; rewrite ?String.eqb_refl, ?Hk; auto.
Qed.

Lemma dict_get_set_ne {V : Type} (k k' : string) (v : V) (d : list (string * V)) :
  String.eqb k' k = false ->
  dict_get k' (dict_set k v d) = dict_get k' d.
Proof.
  intros Hne. induction d as [ | [k0 v0] d IH]; cbn.
  - rewrite Hne. reflexivity.
  - destruct (String.eqb k k0) eqn:Hk; cbn.
    + apply String.eqb_eq in Hk. subst k0. rewrite Hne. reflexivity.
    + rewrite IH. reflexivity.
Qed.

Lemma deref_run (p : process) (a : address) (d : list (string * scalar)) :
  objects p !! a = Some d -> deref a p = (Return d, p).
Proof. intros Hd. unfold deref. rewrite Hd. reflexivity. Qed.

Lemma getitem_run (p : process) (a : address) (d : list (string * scalar))
    (k : string) (v : scalar) :
  objects p !! a = Some d -> dict_get k d = Some v -> getitem a k p = (Return v, p).
Proof.
  intros Hd Hv. unfold getitem. rewrite bind_run, (deref_run p a d Hd), Hv.
  reflexivity.
Qed.

Lemma setitem_run (p : process) (a : address) (d : list (string * scalar))
    (k : string) (v : scalar) :
  objects p !! a = Some d ->
  setitem a k v p =
  (Return tt, mkProcess (<[a := dict_set k v d]> (objects p)) (log p) (clock p)).
Proof.
  intros Hd. unfold setitem. rewrite bind_run, (deref_run p a d Hd). reflexivity.
Qed.

(** The loop body of [get_components] on any dict object with integer
    [quantity] and [low_threshold]. *)
Lemma add_low_stock_warning_run (p : process) (a : address)
    (d : list (string * scalar)) (q t : Z) :
  objects p !! a = Some d ->
  dict_get "quantity" d = Some (SInt q) ->
  dict_get "low_threshold" d = Some (SInt t) ->
  add_low_stock_warning a p =
  (Return tt,
   mkProcess (<[a := dict_set "low_stock" (SBool (Z.leb q t)) d]> (objects p))
             (log p) (clock p)).
Proof.
  intros Hd Hq Ht.
  unfold add_low_stock_warning, eval.
  rewrite bind_run, (getitem_run p a d _ _ Hd Hq).
  rewrite bind_run, (getitem_run p a d _ _ Hd Ht).
  rewrite bind_run. cbn [py_le as_number number_le].
  apply (setitem_run p a d _ _ Hd).
Qed.

End LowStock.

(** C3.  [is_low_stock] is true exactly when the quantity is at or below
    the threshold, and the loop of the [/components] view attaches to a
    dict with the same quantity and threshold a [low_stock] flag equal to
    [is_low_stock]. *)
Theorem low_stock_rule (c : Models.Component) :
  (Models.is_low_stock c = true <-> Models.quantity c <= Models.low_threshold c)
  /\ (forall (p : App.process) (a : App.address) (d : list (string * Value.scalar)),
        App.objects p !! a = Some d ->
        Value.dict_get "quantity" d = Some (Value.SInt (Models.quantity c)) ->
        Value.dict_get "low_threshold" d = Some (Value.SInt (Models.low_threshold c)) ->
        exists d' : list (string * Value.scalar),
          fst (App.add_low_stock_warning a p) = Value.Return tt
          /\ App.objects (snd (App.add_low_stock_warning a p)) !! a = Some d'
          /\ Value.dict_get "low_stock" d' = Some (Value.SBool (Models.is_low_stock c))).
Proof.
  split.
  - unfold Models.is_low_stock. apply Z.leb_le.
  - intros p a d Hd Hq Ht.
    rewrite (add_low_stock_warning_run p a d _ _ Hd Hq Ht).
    eexists. split; [ reflexivity | ]. split.
    + cbn. apply list_lookup_insert_eq. apply (lookup_lt_Some _ _ _ Hd).
    + apply dict_get_set_eq.
Qed.

Lemma low_stock_rule_witness :
  (Models.is_low_stock Sample.led_component = true <-> 3 <= 10)
  /\ exists d' : list (string * Value.scalar),
       fst (App.add_low_stock_warning 0%nat (App.mkProcess [App.led] [] Sample.noon))
         = Value.Return tt
       /\ App.objects
            (snd (App.add_low_stock_warning 0%nat (App.mkProcess [App.led] [] Sample.noon)))
            !! 0%nat = Some d'
       /\ Value.dict_get "low_stock" d' = Some (Value.SBool true).
Proof.
  split.
  - exact (proj1 (low_stock_rule Sample.led_component)).
  - exact (proj2 (low_stock_rule Sample.led_component)
                 (App.mkProcess [App.led] [] Sample.noon) 0%nat App.led
                 eq_refl eq_refl eq_refl).
Defined.

(** C4.  [get_total_value] returns [None] exactly when the price is
    absent, and otherwise the float of the product [quantity *
    unit_price]; the product is the exact one while its coefficient fits
    the 28 digits of the decimal context. *)
Theorem get_total_value_spec (c : Models.Component) :
  (Models.get_total_value c = None <-> Models.unit_price c = None)
  /\ (forall price : Py.Decimal,
        Models.unit_price c = Some price ->
        Models.get_total_value c =
        Some (Py.float_of_decimal (Py.int_mul_decimal (Models.quantity c) price))
        /\ ((Py.dec_coef price * Z.abs_N (Models.quantity c) < 10 ^ 28)%N ->
            Models.get_total_value c =
            Some (Py.float_of_decimal
                    (Py.mkDecimal
                       (xorb (Py.dec_sign price) (Z.ltb (Models.quantity c) 0))
                       (Py.dec_coef price * Z.abs_N (Models.quantity c))
                       (Py.dec_exp price))))).
Proof.
  unfold Models.get_total_value. split.
  - destruct (Models.unit_price c); split; intros H; try reflexivity; discriminate.
  - intros price ->. split; [ reflexivity | ].
    intros Hfit. rewrite (int_mul_decimal_exact _ _ Hfit). reflexivity.
Qed.

Lemma get_total_value_spec_witness :
  Models.unit_price Sample.led_component = Some (Py.mkDecimal false 15 (-2))
  /\ (15 * Z.abs_N 3 < 10 ^ 28)%N
  /\ Models.get_total_value Sample.led_component =
     Some (Py.float_of_decimal (Py.mkDecimal false 45 (-2))).
Proof.
  split; [ reflexivity | ].
  split; [ reflexivity | ].
  exact (proj2 (proj2 (get_total_value_spec Sample.led_component) (Py.mkDecimal false 15 (-2)) eq_refl)
               eq_refl).
Defined.

Section Mutators.
Import Value Eff Models.

Lemma update_quantity_run (now : datetime) (new_quantity : Z) (self : Component) :
  update_quantity now new_quantity self =
  if Z.ltb new_quantity 0
  then (Raise (ValueError "Quantity cannot be negative"), self)
  else (Return tt, set_updated_at now (set_quantity new_quantity self)).
Proof. unfold update_quantity. destruct (Z.ltb new_quantity 0); reflexivity. Qed.

Lemma add_stock_run (now : datetime) (amount : Z) (self : Component) :
  add_stock now amount self =
  if Z.ltb amount 0
  then (Raise (ValueError "Cannot add negative stock"), self)
  else (Return tt, set_updated_at now (set_quantity (quantity self + amount) self)).
Proof. unfold add_stock. destruct (Z.ltb amount 0); reflexivity. Qed.

Lemma remove_stock_run (now : datetime) (amount : Z) (self : Component) :
  remove_stock now amount self =
  if Z.ltb amount 0
  then (Raise (ValueError "Cannot remove negative stock"), self)
  else if Z.gtb amount (quantity self)
       then (Raise (ValueError "Cannot remove more stock than available"), self)
       else (Return tt, set_updated_at now (set_quantity (quantity self - amount) self)).
Proof.
  unfold remove_stock. destruct (Z.ltb amount 0); [ reflexivity | ].
  rewrite bind_run. cbn [get].
  destruct (Z.gtb amount (quantity self)); reflexivity.
Qed.

(** A call that raises leaves the component as it was. *)
Lemma call_raise_unchanged (now : datetime) (c : stock_call) (self : Component) (e : exn) :
  fst (call now c self) = Raise e -> snd (call now c self) = self.
Proof.
  destruct c as [q | a | a]; cbn [call];
    rewrite ?update_quantity_run, ?add_stock_run, ?remove_stock_run;
    repeat match goal with |- context [if ?b then _ else _] => destruct b end;
    cbn; intros H; try reflexivity; discriminate.
Qed.

Lemma call_nonneg (now : datetime) (c : stock_call) (self : Component) :
  0 <= quantity self -> 0 <= quantity (snd (call now c self)).
Proof.
  intros Hq.
  destruct c as [q | a | a]; cbn [call];
    rewrite ?update_quantity_run, ?add_stock_run, ?remove_stock_run.
  - destruct (Z.ltb_spec q 0); cbn; lia.
  - destruct (Z.ltb_spec a 0); cbn; lia.
  - destruct (Z.ltb_spec a 0); cbn; [ lia | ].
    destruct (Z.gtb_spec a (quantity self)); cbn; lia.
Qed.

(** The quantity stays non-negative along any sequence of calls, failed
    ones included. *)
Lemma run_calls_nonneg (cs : list (datetime * stock_call)) (self : Component) :
  0 <= quantity self -> 0 <= quantity (run_calls cs self).
Proof.
  revert self. induction cs as [ | [now c] cs IH]; intros self Hq; cbn.
  - exact Hq.
  - apply IH, call_nonneg, Hq.
Qed.

End Mutators.

(** C8.  [remove_stock] raises [ValueError] exactly when the amount is
    negative or exceeds the quantity; when it raises, the component is
    unchanged (its quantity and [updated_at] in particular); when it
    returns, the quantity has decreased by the amount. *)
Theorem remove_stock_spec (now : Value.datetime) (amount : Z) (self : Models.Component) :
  ((exists msg : string,
       fst (Models.remove_stock now amount self) = Value.Raise (Value.ValueError msg))
   <-> amount < 0 \/ amount > Models.quantity self)
  /\ (forall e : Value.exn,
        fst (Models.remove_stock now amount self) = Value.Raise e ->
        (exists msg : string, e = Value.ValueError msg)
        /\ snd (Models.remove_stock now amount self) = self
        /\ Models.quantity (snd (Models.remove_stock now amount self)) = Models.quantity self
        /\ Models.updated_at (snd (Models.remove_stock now amount self)) = Models.updated_at self)
  /\ (fst (Models.remove_stock now amount self) = Value.Return tt ->
        Models.quantity (snd (Models.remove_stock now amount self)) =
        Models.quantity self - amount).
Proof.
  rewrite remove_stock_run.
  destruct (Z.ltb_spec amount 0) as [Hneg | Hnonneg].
  - cbn. split; [ | split ].
    + split; [ intros _; lia | intros _; eexists; reflexivity ].
    + intros e He. inversion He; subst. repeat split; eauto.
    + discriminate.
  - destruct (Z.gtb_spec amount (Models.quantity self)) as [Hgt | Hle].
    + cbn. split; [ | split ].
      * split; [ intros _; lia | intros _; eexists; reflexivity ].
      * intros e He. inversion He; subst. repeat split; eauto.
      * discriminate.
    + cbn. split; [ | split ].
      * split; [ intros [msg Hmsg]; discriminate | lia ].
      * discriminate.
      * reflexivity.
Qed.

Lemma remove_stock_spec_witness :
  fst (Models.remove_stock Sample.noon 2 Sample.led_component) = Value.Return tt
  /\ Models.quantity (snd (Models.remove_stock Sample.noon 2 Sample.led_component)) = 3 - 2.
Proof.
  split; [ reflexivity | ].
  exact (proj2 (proj2 (remove_stock_spec Sample.noon 2 Sample.led_component)) eq_refl).
Defined.

(** C9.  On a component whose quantity is non-negative, every call of
    [update_quantity], [add_stock] or [remove_stock] that returns leaves
    the quantity non-negative. *)
Theorem mutators_preserve_nonneg (now : Value.datetime) (n : Z) (self : Models.Component) :
  0 <= Models.quantity self ->
  (fst (Models.update_quantity now n self) = Value.Return tt ->
     0 <= Models.quantity (snd (Models.update_quantity now n self)))
  /\ (fst (Models.add_stock now n self) = Value.Return tt ->
        0 <= Models.quantity (snd (Models.add_stock now n self)))
  /\ (fst (Models.remove_stock now n self) = Value.Return tt ->
        0 <= Models.quantity (snd (Models.remove_stock now n self))).
Proof.
  intros Hq. split; [ | split ]; intros _.
  - exact (call_nonneg now (Models.UpdateQuantity n) self Hq).
  - exact (call_nonneg now (Models.AddStock n) self Hq).
  - exact (call_nonneg now (Models.RemoveStock n) self Hq).
Qed.

Lemma mutators_preserve_nonneg_witness :
  0 <= Models.quantity Sample.led_component
  /\ 0 <= Models.quantity (snd (Models.update_quantity Sample.noon 0 Sample.led_component))
  /\ 0 <= Models.quantity (snd (Models.add_stock Sample.noon 0 Sample.led_component))
  /\ 0 <= Models.quantity (snd (Models.remove_stock Sample.noon 0 Sample.led_component)).
Proof.
  assert (H : 0 <= Models.quantity Sample.led_component) by (cbn; lia).
  split; [ exact H | ].
  destruct (mutators_preserve_nonneg Sample.noon 0 Sample.led_component H) as (Hu & Ha & Hr).
  split; [ exact (Hu eq_refl) | split; [ exact (Ha eq_refl) | exact (Hr eq_refl) ] ].
Defined.

(** C10.  With a price equal to zero, [to_dict] gives [None] for
    [unit_price] and a float zero for [total_value] (0.0 when neither
    the quantity nor the zero is negative); with no price both fields
    are [None]. *)
Theorem to_dict_zero_price (c : Models.Component) :
  (forall price : Py.Decimal,
      Models.unit_price c = Some price ->
      Py.dec_coef price = 0%N ->
      Value.dict_get "unit_price" (Models.to_dict c) = Some Value.JNull
      /\ Value.dict_get "total_value" (Models.to_dict c) =
         Some (Models.JFloat
                 (S754_zero (xorb (Py.dec_sign price) (Z.ltb (Models.quantity c) 0))))
      /\ (0 <= Models.quantity c -> Py.dec_sign price = false ->
          Value.dict_get "total_value" (Models.to_dict c) =
          Some (Models.JFloat (S754_zero false))))
  /\ (Models.unit_price c = None ->
      Value.dict_get "unit_price" (Models.to_dict c) = Some Value.JNull
      /\ Value.dict_get "total_value" (Models.to_dict c) = Some Value.JNull).
Proof.
  split.
  - intros [s coef e] Hprice Hzero. cbn in Hzero. subst coef.
    assert (Htotal :
      Value.dict_get "total_value" (Models.to_dict c) =
      Some (Models.JFloat (S754_zero (xorb s (Z.ltb (Models.quantity c) 0))))).
    { cbn. unfold Models.get_total_value. rewrite Hprice. reflexivity. }
    split; [ | split ].
    + cbn. rewrite Hprice. reflexivity.
    + exact Htotal.
    + intros Hq Hs. cbn in Hs. subst s. rewrite Htotal.
      destruct (Z.ltb_spec (Models.quantity c) 0); [ lia | reflexivity ].
  - intros Hprice. split; cbn.
    + rewrite Hprice. reflexivity.
    + unfold Models.get_total_value. rewrite Hprice. reflexivity.
Qed.

Lemma to_dict_zero_price_witness :
  Models.unit_price Sample.free_led = Some (Py.mkDecimal false 0 (-2))
  /\ Value.dict_get "unit_price" (Models.to_dict Sample.free_led) = Some Value.JNull
  /\ Value.dict_get "total_value" (Models.to_dict Sample.free_led) =
     Some (Models.JFloat (S754_zero false)).
Proof.
  split; [ reflexivity | ].
  destruct (proj1 (to_dict_zero_price Sample.free_led) (Py.mkDecimal false 0 (-2))
                  eq_refl eq_refl) as (Hu & Ht & _).
  split; [ exact Hu | exact Ht ].
Defined.

(** ** Routing with the exact matcher *)

Section ExactRouting.
Import Value Eff App.

(** A path that is none of the four registered ones matches no rule. *)
Lemma match_exact_unregistered (m p : string) :
  p <> "/" -> p <> "/health" -> p <> "/login" -> p <> "/components" ->
  match_exact url_map m p = Raise (HTTPException 404).
Proof.
  intros H1 H2 H3 H4. unfold url_map, add_url_rule. cbn [match_exact rule_path].
  apply String.eqb_neq in H1, H2, H3, H4.
  rewrite H1, H2, H3, H4. reflexivity.
Qed.

(** A request other than [OPTIONS] that is routed to a view which
    returns is answered by that view. *)
Lemma full_dispatch_request_view
    (url_match : list rule -> string -> string -> outcome endpoint)
    (req : request) (p : process) (e : endpoint) (r : response) (p' : process) :
  url_match url_map (method req) (path req) = Return e ->
  String.eqb (method req) "OPTIONS" = false ->
  view_functions e req p = (Return r, p') ->
  full_dispatch_request url_match req p = (Return r, p').
Proof.
  intros Hmatch Hopt Hview.
  unfold full_dispatch_request, try_except, eval.
  rewrite bind_run, Hmatch, Hopt, Hview. reflexivity.
Qed.

Example get_health_served :
  fst (full_dispatch_request match_exact (mkRequest "GET" "/health" (Return JNull))
                             Sample.fresh_process) =
  Return (jsonify [ ("status", JStr "healthy");
                    ("timestamp", JStr "2024-01-02T12:00:00");
                    ("service", JStr "Electronics Lab Inventory LIMS") ] 200).
Proof. reflexivity. Qed.

Example get_login_not_allowed :
  fst (full_dispatch_request match_exact (mkRequest "GET" "/login" (Return JNull))
                             Sample.fresh_process) =
  Return (mkResponse ErrorPage 405).
Proof. reflexivity. Qed.

End ExactRouting.

(** ** The number model against values computed by Python *)

Section PythonValues.
Import Value Py.

Example float_literal_25_99 :
  float_literal 2599 (-2) = S754_finite false 7315534644709949 (-48).
Proof. vm_compute. reflexivity. Qed.

Example float_literal_0_05 :
  float_literal 5 (-2) = S754_finite false 7205759403792794 (-57).
Proof. vm_compute. reflexivity. Qed.

Example float_literal_0_15 :
  float_literal 15 (-2) = S754_finite false 5404319552844595 (-55).
Proof. vm_compute. reflexivity. Qed.

Example float_literal_1e23 :
  float_literal 1 23 = S754_finite false 5960464477539062 24.
Proof. vm_compute. reflexivity. Qed.

Example float_literal_overflow : float_literal 1 400 = S754_infinity false.
Proof. vm_compute. reflexivity. Qed.

Example float_literal_underflow : float_literal 1 (-400) = S754_zero false.
Proof. vm_compute. reflexivity. Qed.

(** [12345678901234567890123456789012345 * Decimal('1.5')] is
    [Decimal('1.851851835185185183518518518E+34')]. *)
Example int_mul_decimal_rounds :
  int_mul_decimal 12345678901234567890123456789012345 (mkDecimal false 15 (-1)) =
  mkDecimal false 1851851835185185183518518518 7.
Proof. vm_compute. reflexivity. Qed.

(** [99999999999999999999999999995 * Decimal('1')] is
    [Decimal('1.000000000000000000000000000E+29')]. *)
Example int_mul_decimal_carries :
  int_mul_decimal 99999999999999999999999999995 (mkDecimal false 1 0) =
  mkDecimal false 1000000000000000000000000000 2.
Proof. vm_compute. reflexivity. Qed.

(** [-3 * Decimal('0.00')] is [Decimal('-0.00')]. *)
Example int_mul_decimal_negative_zero :
  int_mul_decimal (-3) (mkDecimal false 0 (-2)) = mkDecimal true 0 (-2).
Proof. vm_compute. reflexivity. Qed.

Example isoformat_whole_second :
  isoformat (mkDatetime 5 1 2 3 4 5 0) = "0005-01-02T03:04:05".
Proof. vm_compute. reflexivity. Qed.

Example isoformat_microsecond :
  isoformat (mkDatetime 2024 1 2 3 4 5 7) = "2024-01-02T03:04:05.000007".
Proof. vm_compute. reflexivity. Qed.

Example py_le_int_float :
  py_le (SInt 3) (SFloat (float_literal 35 (-1))) = Return true
  /\ py_le (SInt 4) (SFloat (float_literal 35 (-1))) = Return false
  /\ py_le (SBool true) (SInt 1) = Return true
  /\ py_le (SInt 1) (SStr "1") = Raise TypeError.
Proof. vm_compute. repeat split. Qed.

End PythonValues.

(** * Further properties of the model methods *)

Section MutatorLaws.
Import Value Eff Models.

(** [update_quantity] raises exactly on a negative quantity and then
    changes nothing; otherwise it stores the quantity and the time. *)
Lemma update_quantity_spec (now : datetime) (new_quantity : Z) (self : Component) :
  ((exists msg : string,
       fst (update_quantity now new_quantity self) = Raise (ValueError msg))
   <-> new_quantity < 0)
  /\ (new_quantity < 0 ->
      update_quantity now new_quantity self =
      (Raise (ValueError "Quantity cannot be negative"), self))
  /\ (0 <= new_quantity ->
      fst (update_quantity now new_quantity self) = Return tt
      /\ quantity (snd (update_quantity now new_quantity self)) = new_quantity
      /\ updated_at (snd (update_quantity now new_quantity self)) = Some now).
Proof.
  rewrite update_quantity_run.
  destruct (Z.ltb_spec new_quantity 0) as [Hneg | Hpos]; cbn.
  - split; [ | split ].
    + split; [ intros _; exact Hneg | intros _; eexists; reflexivity ].
    + reflexivity.
    + lia.
  - split; [ | split ].
    + split; [ intros [msg Hmsg]; discriminate | lia ].
    + lia.
    + auto.
Qed.

Lemma update_quantity_spec_witness :
  0 <= 7
  /\ fst (update_quantity Sample.noon 7 Sample.led_component) = Return tt
  /\ quantity (snd (update_quantity Sample.noon 7 Sample.led_component)) = 7
  /\ updated_at (snd (update_quantity Sample.noon 7 Sample.led_component)) = Some Sample.noon.
Proof.
  assert (H : 0 <= 7) by lia.
  split; [ exact H | ].
  exact (proj2 (proj2 (update_quantity_spec Sample.noon 7 Sample.led_component)) H).
Defined.

(** [add_stock] raises exactly on a negative amount and then changes
    nothing; otherwise the quantity grows by the amount. *)
Lemma add_stock_spec (now : datetime) (amount : Z) (self : Component) :
  ((exists msg : string, fst (add_stock now amount self) = Raise (ValueError msg))
   <-> amount < 0)
  /\ (amount < 0 ->
      add_stock now amount self = (Raise (ValueError "Cannot add negative stock"), self))
  /\ (0 <= amount ->
      fst (add_stock now amount self) = Return tt
      /\ quantity (snd (add_stock now amount self)) = quantity self + amount
      /\ updated_at (snd (add_stock now amount self)) = Some now).
Proof.
  rewrite add_stock_run.
  destruct (Z.ltb_spec amount 0) as [Hneg | Hpos]; cbn.
  - split; [ | split ].
    + split; [ intros _; exact Hneg | intros _; eexists; reflexivity ].
    + reflexivity.
    + lia.
  - split; [ | split ].
    + split; [ intros [msg Hmsg]; discriminate | lia ].
    + lia.
    + auto.
Qed.

Lemma add_stock_spec_witness :
  0 <= 4
  /\ fst (add_stock Sample.noon 4 Sample.led_component) = Return tt
  /\ quantity (snd (add_stock Sample.noon 4 Sample.led_component)) = 3 + 4
  /\ updated_at (snd (add_stock Sample.noon 4 Sample.led_component)) = Some Sample.noon.
Proof.
  assert (H : 0 <= 4) by lia.
  split; [ exact H | ].
  exact (proj2 (proj2 (add_stock_spec Sample.noon 4 Sample.led_component)) H).
Defined.

(** What is not the quantity or [updated_at] is out of reach of the
    three mutators, whether they return or raise. *)
Lemma mutators_frame (now : datetime) (c : stock_call) (self : Component) :
  id (snd (call now c self)) = id self
  /\ name (snd (call now c self)) = name self
  /\ part_number (snd (call now c self)) = part_number self
  /\ category (snd (call now c self)) = category self
  /\ location (snd (call now c self)) = location self
  /\ unit_price (snd (call now c self)) = unit_price self
  /\ low_threshold (snd (call now c self)) = low_threshold self
  /\ created_at (snd (call now c self)) = created_at self
  /\ description (snd (call now c self)) = description self
  /\ manufacturer (snd (call now c self)) = manufacturer self
  /\ datasheet_url (snd (call now c self)) = datasheet_url self.
Proof.
  destruct c as [q | a | a]; cbn [call];
    rewrite ?update_quantity_run, ?add_stock_run, ?remove_stock_run;
    repeat match goal with |- context [if ?b then _ else _] => destruct b end;
    cbn; repeat split.
Qed.

(** Stock that was added can be removed again, which restores the
    quantity. *)
Lemma add_then_remove (now1 now2 : datetime) (amount : Z) (self : Component) :
  0 <= quantity self ->
  0 <= amount ->
  fst (remove_stock now2 amount (snd (add_stock now1 amount self))) = Return tt
  /\ quantity (snd (remove_stock now2 amount (snd (add_stock now1 amount self))))
     = quantity self.
Proof.
  intros Hq Ha. rewrite add_stock_run.
  destruct (Z.ltb_spec amount 0); [ lia | ]. cbn [snd].
  rewrite remove_stock_run.
  destruct (Z.ltb_spec amount 0); [ lia | ].
  cbn [quantity set_updated_at set_quantity].
  destruct (Z.gtb_spec amount (quantity self + amount)); [ lia | ].
  cbn. split; [ reflexivity | lia ].
Qed.

Lemma add_then_remove_witness :
  0 <= quantity Sample.led_component
  /\ 0 <= 5
  /\ fst (remove_stock Sample.noon 5 (snd (add_stock Sample.noon 5 Sample.led_component)))
     = Return tt
  /\ quantity (snd (remove_stock Sample.noon 5
                      (snd (add_stock Sample.noon 5 Sample.led_component)))) = 3.
Proof.
  assert (Hq : 0 <= quantity Sample.led_component) by (cbn; lia).
  assert (Ha : 0 <= 5) by lia.
  split; [ exact Hq | split; [ exact Ha | ] ].
  exact (add_then_remove Sample.noon Sample.noon 5 Sample.led_component Hq Ha).
Defined.

(** Stock that was removed can be added back, which restores the
    quantity. *)
Lemma remove_then_add (now1 now2 : datetime) (amount : Z) (self : Component) :
  fst (remove_stock now1 amount self) = Return tt ->
  fst (add_stock now2 amount (snd (remove_stock now1 amount self))) = Return tt
  /\ quantity (snd (add_stock now2 amount (snd (remove_stock now1 amount self))))
     = quantity self.
Proof.
  rewrite remove_stock_run.
  destruct (Z.ltb_spec amount 0) as [ | Ha]; [ discriminate | ].
  destruct (Z.gtb_spec amount (quantity self)); [ discriminate | ].
  intros _. cbn [snd]. rewrite add_stock_run.
  destruct (Z.ltb_spec amount 0); [ lia | ].
  cbn. split; [ reflexivity | lia ].
Qed.

Lemma remove_then_add_witness :
  fst (remove_stock Sample.noon 2 Sample.led_component) = Return tt
  /\ fst (add_stock Sample.noon 2 (snd (remove_stock Sample.noon 2 Sample.led_component)))
     = Return tt
  /\ quantity (snd (add_stock Sample.noon 2
                      (snd (remove_stock Sample.noon 2 Sample.led_component)))) = 3.
Proof.
  split; [ reflexivity | ].
  exact (remove_then_add Sample.noon Sample.noon 2 Sample.led_component eq_refl).
Defined.

(** Two additions are one addition of the sum. *)
Lemma add_stock_compose (now1 now2 : datetime) (a b : Z) (self : Component) :
  0 <= a -> 0 <= b ->
  add_stock now2 b (snd (add_stock now1 a self)) = add_stock now2 (a + b) self.
Proof.
  intros Ha Hb. rewrite !add_stock_run.
  destruct (Z.ltb_spec a 0); [ lia | ].
  destruct (Z.ltb_spec b 0); [ lia | ].
  destruct (Z.ltb_spec (a + b) 0); [ lia | ].
  cbn. rewrite Z.add_assoc. reflexivity.
Qed.

Lemma add_stock_compose_witness :
  0 <= 1 /\ 0 <= 2
  /\ add_stock Sample.noon 2 (snd (add_stock Sample.noon 1 Sample.led_component))
     = add_stock Sample.noon (1 + 2) Sample.led_component.
Proof.
  assert (Ha : 0 <= 1) by lia. assert (Hb : 0 <= 2) by lia.
  split; [ exact Ha | split; [ exact Hb | ] ].
  exact (add_stock_compose Sample.noon Sample.noon 1 2 Sample.led_component Ha Hb).
Defined.

(** Two removals succeed together exactly when the removal of the sum
    does, and then leave the same component. *)
Lemma remove_stock_compose (now1 now2 : datetime) (a b : Z) (self : Component) :
  0 <= a -> 0 <= b ->
  (fst (remove_stock now1 a self) = Return tt
   /\ fst (remove_stock now2 b (snd (remove_stock now1 a self))) = Return tt
   <-> fst (remove_stock now2 (a + b) self) = Return tt)
  /\ (fst (remove_stock now2 (a + b) self) = Return tt ->
      snd (remove_stock now2 b (snd (remove_stock now1 a self)))
      = snd (remove_stock now2 (a + b) self)).
Proof.
  intros Ha Hb. rewrite !remove_stock_run.
  destruct (Z.ltb_spec a 0); [ lia | ].
  destruct (Z.ltb_spec (a + b) 0); [ lia | ].
  destruct (Z.gtb_spec a (quantity self)) as [Hgt | Hle]; cbn [fst snd].
  - destruct (Z.gtb_spec (a + b) (quantity self)); [ | lia ].
    split; [ split; [ intros [Hx _]; discriminate | discriminate ] | discriminate ].
  - destruct (Z.ltb_spec b 0); [ lia | ].
    cbn [quantity set_updated_at set_quantity].
    destruct (Z.gtb_spec b (quantity self - a)), (Z.gtb_spec (a + b) (quantity self));
      try lia; cbn.
    + split; [ split; [ intros [_ Hx]; discriminate | discriminate ] | discriminate ].
    + split; [ tauto | ]. intros _.
      replace (quantity self - a - b) with (quantity self - (a + b)) by lia.
      reflexivity.
Qed.

Lemma remove_stock_compose_witness :
  0 <= 1 /\ 0 <= 2
  /\ fst (remove_stock Sample.noon (1 + 2) Sample.led_component) = Return tt
  /\ snd (remove_stock Sample.noon 2 (snd (remove_stock Sample.noon 1 Sample.led_component)))
     = snd (remove_stock Sample.noon (1 + 2) Sample.led_component).
Proof.
  assert (Ha : 0 <= 1) by lia. assert (Hb : 0 <= 2) by lia.
  split; [ exact Ha | split; [ exact Hb | split; [ reflexivity | ] ] ].
  exact (proj2 (remove_stock_compose Sample.noon Sample.noon 1 2 Sample.led_component Ha Hb)
               eq_refl).
Defined.

(** Removing stock never clears a low-stock state, and adding stock never
    creates one. *)
Lemma low_stock_monotone (now : datetime) (amount : Z) (self : Component) :
  (is_low_stock self = true ->
   is_low_stock (snd (remove_stock now amount self)) = true)
  /\ (is_low_stock (snd (add_stock now amount self)) = true ->
      is_low_stock self = true).
Proof.
  unfold is_low_stock. rewrite remove_stock_run, add_stock_run. split.
  - intros Hlow. apply Z.leb_le in Hlow.
    destruct (Z.ltb_spec amount 0); cbn; [ apply Z.leb_le; exact Hlow | ].
    destruct (Z.gtb_spec amount (quantity self)); cbn; apply Z.leb_le; lia.
  - destruct (Z.ltb_spec amount 0); cbn; [ auto | ].
    intros Hlow. apply Z.leb_le in Hlow. apply Z.leb_le. lia.
Qed.

Lemma low_stock_monotone_witness :
  is_low_stock Sample.led_component = true
  /\ is_low_stock (snd (remove_stock Sample.noon 1 Sample.led_component)) = true.
Proof.
  split; [ reflexivity | ].
  exact (proj1 (low_stock_monotone Sample.noon 1 Sample.led_component) eq_refl).
Defined.

End MutatorLaws.

Section Serialisation.
Import Value Eff Models.

(** With no stock the total value is a zero, of the sign of the price. *)
Lemma get_total_value_no_stock (c : Component) (price : Py.Decimal) :
  quantity c = 0 ->
  unit_price c = Some price ->
  get_total_value c = Some (S754_zero (Py.dec_sign price)).
Proof.
  intros Hq Hp. unfold get_total_value. rewrite Hp, Hq.
  destruct price as [s coef e].
  unfold Py.int_mul_decimal, Py.decimal_mul. cbn [Py.dec_sign Py.dec_coef Py.dec_exp Py.decimal_of_int Z.ltb Z.compare Z.abs_N].
  rewrite N.mul_0_r, xorb_false_r. reflexivity.
Qed.

Lemma get_total_value_no_stock_witness :
  quantity (set_quantity 0 Sample.led_component) = 0
  /\ unit_price (set_quantity 0 Sample.led_component) = Some (Py.mkDecimal false 15 (-2))
  /\ get_total_value (set_quantity 0 Sample.led_component) = Some (S754_zero false).
Proof.
  split; [ reflexivity | split; [ reflexivity | ] ].
  exact (get_total_value_no_stock (set_quantity 0 Sample.led_component)
                                  (Py.mkDecimal false 15 (-2)) eq_refl eq_refl).
Defined.

(** After a quantity update that returns, [to_dict] shows the new
    quantity, the low-stock flag recomputed from it, the time of the
    update, and a total value recomputed from it. *)
Lemma to_dict_after_update (now : datetime) (new_quantity : Z) (self : Component) :
  0 <= new_quantity ->
  dict_get "quantity" (to_dict (snd (update_quantity now new_quantity self)))
    = Some (JInt new_quantity)
  /\ dict_get "low_stock" (to_dict (snd (update_quantity now new_quantity self)))
     = Some (JBool (Z.leb new_quantity (low_threshold self)))
  /\ dict_get "updated_at" (to_dict (snd (update_quantity now new_quantity self)))
     = Some (JStr (isoformat now))
  /\ dict_get "total_value" (to_dict (snd (update_quantity now new_quantity self)))
     = Some (json_of_option
               (fun price => JFloat (Py.float_of_decimal (Py.int_mul_decimal new_quantity price)))
               (unit_price self)).
Proof.
  intros Hq. rewrite update_quantity_run.
  destruct (Z.ltb_spec new_quantity 0); [ lia | ].
  cbn. unfold get_total_value. cbn.
  destruct (unit_price self); repeat split.
Qed.

Lemma to_dict_after_update_witness :
  0 <= 20
  /\ dict_get "quantity" (to_dict (snd (update_quantity Sample.noon 20 Sample.led_component)))
     = Some (JInt 20)
  /\ dict_get "low_stock" (to_dict (snd (update_quantity Sample.noon 20 Sample.led_component)))
     = Some (JBool false).
Proof.
  assert (H : 0 <= 20) by lia.
  split; [ exact H | ].
  destruct (to_dict_after_update Sample.noon 20 Sample.led_component H) as (Hq & Hl & _).
  split; [ exact Hq | exact Hl ].
Defined.

End Serialisation.

(** * Further properties of the views *)

Section LoginLaws.
Import Value Eff App.

(** The four ways [login] can end. *)
Lemma login_run (req : request) (p : process) :
  (exists e : exn,
      login req p =
      (Return internal_server_error,
       mkProcess (objects p)
                 (log p ++ [mkLogRecord ERROR [ Text "Login error: "; FormatExn e ]])
                 (clock p))
      /\ (get_json req = Raise e
          \/ exists data : json,
               get_json req = Return data
               /\ (credentials_missing data = Raise e
                   \/ (credentials_missing data = Return false
                       /\ py_get "username" data = Raise e))))
  \/ (exists data : json,
         get_json req = Return data
         /\ credentials_missing data = Return true
         /\ login req p =
            (Return (jsonify [ ("error", JStr "Username and password required") ] 400), p))
  \/ (exists (data u : json),
         get_json req = Return data
         /\ credentials_missing data = Return false
         /\ py_get "username" data = Return u
         /\ login req p =
            (Return
               (jsonify
                  [ ("success", JBool true);
                    ("message", JStr "Login successful");
                    ("user", JObject [ ("id", JInt 1); ("username", u);
                                       ("role", JStr "admin") ]);
                    ("token", JStr "dummy-jwt-token-replace-with-real-implementation") ]
                  200),
             mkProcess (objects p)
                       (log p ++ [mkLogRecord INFO [ Text "Login attempt for user: ";
                                                     Format u ]])
                       (clock p))).
Proof.
  unfold login, try_except, eval. rewrite !bind_run.
  destruct (get_json req) as [data | e] eqn:Hj.
  - rewrite !bind_run.
    destruct (credentials_missing data) as [[ | ] | e] eqn:Hm.
    + right; left. exists data.
      split; [ reflexivity | split; [ exact Hm | reflexivity ] ].
    + rewrite !bind_run.
      destruct (py_get "username" data) as [u | e] eqn:Hu.
      * right; right. exists data, u.
        split; [ reflexivity | split; [ exact Hm | split; [ exact Hu | reflexivity ] ] ].
      * left. exists e. split; [ reflexivity | ]. right. exists data. eauto.
    + left. exists e. split; [ reflexivity | ]. right. exists data. eauto.
  - left. exists e. split; [ reflexivity | ]. left. reflexivity.
Qed.

(** [login] always answers, with 200, 400 or 500; it leaves the objects
    and the clock alone, writes nothing to the log when it answers 400,
    and one record otherwise. *)
Lemma login_always_answers (req : request) (p : process) :
  exists r : response,
    fst (login req p) = Return r
    /\ (status r = 200 \/ status r = 400 \/ status r = 500)
    /\ objects (snd (login req p)) = objects p
    /\ clock (snd (login req p)) = clock p
    /\ (status r = 400 -> log (snd (login req p)) = log p)
    /\ (status r <> 400 ->
        exists record : log_record,
          log (snd (login req p)) = (log p ++ [record])%list).
Proof.
  destruct (login_run req p)
    as [(e & Hrun & _) | [(data & _ & _ & Hrun) | (data & u & _ & _ & _ & Hrun)]];
    rewrite Hrun; cbn.
  - eexists. split; [ reflexivity | ]. cbn. repeat split; try lia; eauto.
  - eexists. split; [ reflexivity | ]. cbn. repeat split; try lia; eauto.
  - eexists. split; [ reflexivity | ]. cbn. repeat split; try lia; eauto.
Qed.

Lemma py_get_object (k : string) (data u : json) :
  py_get k data = Return u -> exists d, data = JObject d.
Proof. destruct data; try discriminate. eauto. Qed.

(** [login] answers 200 exactly for a JSON object that holds both keys. *)
Lemma login_ok_iff (req : request) (p : process) :
  (exists r : response, fst (login req p) = Return r /\ status r = 200)
  <-> (exists d : list (string * json),
          get_json req = Return (JObject d)
          /\ dict_contains "username" d = true
          /\ dict_contains "password" d = true).
Proof.
  split.
  - intros (r & Hr & Hs).
    destruct (login_run req p)
      as [(e & Hrun & _) | [(data & _ & _ & Hrun) | (data & u & Hj & Hm & Hu & Hrun)]];
      rewrite Hrun in Hr; cbn in Hr; inversion Hr; subst r; cbn in Hs; try lia.
    destruct (py_get_object _ _ _ Hu) as [d ->].
    rewrite credentials_missing_object in Hm.
    assert (Hb : negb (dict_contains "username" d && dict_contains "password" d) = false)
      by congruence.
    apply negb_false_iff, andb_true_iff in Hb.
    destruct Hb as [Hb1 Hb2]. exists d. auto.
  - intros (d & Hj & Hu & Hp).
    destruct (login_run req p)
      as [(e & Hrun & Hwhy) | [(data & Hj' & Hm & Hrun) | (data & u & _ & _ & _ & Hrun)]].
    + exfalso. destruct Hwhy as [Hr | (data & Hj' & Hwhy)]; [ congruence | ].
      rewrite Hj in Hj'. inversion Hj'; subst data.
      rewrite credentials_missing_object, Hu, Hp in Hwhy.
      destruct Hwhy as [Hx | [_ Hx]]; [ discriminate | ].
      cbn in Hx. discriminate.
    + exfalso. rewrite Hj in Hj'. inversion Hj'; subst data.
      rewrite credentials_missing_object, Hu, Hp in Hm. discriminate.
    + rewrite Hrun. eexists. split; reflexivity.
Qed.

(** [login] answers 400 exactly when the body is falsy, or the test for
    [username] is false, or the test for [password] is false after a true
    one for [username]. *)
Lemma login_bad_request_iff (req : request) (p : process) :
  (exists r : response, fst (login req p) = Return r /\ status r = 400)
  <-> (exists data : json,
          get_json req = Return data
          /\ (truthy data = false
              \/ (truthy data = true /\ py_contains "username" data = Return false)
              \/ (truthy data = true
                  /\ py_contains "username" data = Return true
                  /\ py_contains "password" data = Return false))).
Proof.
  assert (Hmissing : forall data,
    credentials_missing data = Return true <->
    (truthy data = false
     \/ (truthy data = true /\ py_contains "username" data = Return false)
     \/ (truthy data = true
         /\ py_contains "username" data = Return true
         /\ py_contains "password" data = Return false))).
  { intros data. unfold credentials_missing.
    destruct (truthy data); cbn [negb].
    - destruct (py_contains "username" data) as [[ | ] | e1].
      + destruct (py_contains "password" data) as [[ | ] | e2]; cbn;
          split; intros H; try discriminate; try tauto;
          destruct H as [H | [[_ H] | (_ & _ & H)]]; discriminate.
      + split; intros H; tauto.
      + split; intros H; try discriminate.
        destruct H as [H | [[_ H] | (_ & H & _)]]; discriminate.
    - split; intros H; tauto. }
  split.
  - intros (r & Hr & Hs).
    destruct (login_run req p)
      as [(e & Hrun & _) | [(data & Hj & Hm & Hrun) | (data & u & _ & _ & _ & Hrun)]];
      rewrite Hrun in Hr; cbn in Hr; inversion Hr; subst r; cbn in Hs; try lia.
    exists data. split; [ exact Hj | apply Hmissing, Hm ].
  - intros (data & Hj & Hwhy). apply Hmissing in Hwhy.
    rewrite (login_missing req p data Hj Hwhy). eexists. split; reflexivity.
Qed.

(** What [login] does with a JSON object depends on it only through the
    value under [username] and the presence of [password]: the value of
    the password reaches neither the response nor the log. *)
Lemma login_ignores_password (req1 req2 : request) (d1 d2 : list (string * json))
    (p : process) :
  get_json req1 = Return (JObject d1) ->
  get_json req2 = Return (JObject d2) ->
  dict_get "username" d1 = dict_get "username" d2 ->
  dict_contains "password" d1 = dict_contains "password" d2 ->
  login req1 p = login req2 p.
Proof.
  intros H1 H2 Hu Hp.
  assert (Hc : dict_contains "username" d1 = dict_contains "username" d2)
    by (unfold dict_contains; rewrite Hu; reflexivity).
  unfold login, try_except, eval.
  rewrite !bind_run, H1, H2, !bind_run, !credentials_missing_object, <- Hc, <- Hp.
  cbn [py_get]. rewrite <- Hu. reflexivity.
Qed.

Lemma login_ignores_password_witness :
  login Sample.login_request Sample.fresh_process =
  login (mkRequest "POST" "/login"
           (Return (JObject [ ("username", JStr "testuser"); ("password", JInt 0) ])))
        Sample.fresh_process.
Proof.
  exact (login_ignores_password
           Sample.login_request
           (mkRequest "POST" "/login"
              (Return (JObject [ ("username", JStr "testuser"); ("password", JInt 0) ])))
           Sample.credentials
           [ ("username", JStr "testuser"); ("password", JInt 0) ]
           Sample.fresh_process eq_refl eq_refl eq_refl eq_refl).
Defined.

(** A JSON list that contains both names passes the test and is
    answered 500, because a list has no [get]. *)
Lemma login_list_body (req : request) (l : list json) (p : process) :
  get_json req = Return (JList l) ->
  existsb (str_eq "username") l = true ->
  existsb (str_eq "password") l = true ->
  login req p =
  (Return internal_server_error,
   mkProcess (objects p)
             (log p ++ [mkLogRecord ERROR [ Text "Login error: ";
                                            FormatExn AttributeError ]])
             (clock p)).
Proof.
  intros Hj Hu Hp.
  unfold login, try_except, eval. rewrite !bind_run, Hj, !bind_run.
  unfold credentials_missing. cbn [py_contains].
  destruct l as [ | x l]; [ discriminate | ].
  cbn [truthy negb]. rewrite Hu, Hp. reflexivity.
Qed.

Lemma login_list_body_witness :
  fst (login (mkRequest "POST" "/login"
                (Return (JList [ JStr "username"; JStr "password" ])))
             Sample.fresh_process)
  = Return internal_server_error.
Proof.
  rewrite (login_list_body
             (mkRequest "POST" "/login"
                (Return (JList [ JStr "username"; JStr "password" ])))
             [ JStr "username"; JStr "password" ]
             Sample.fresh_process eq_refl eq_refl eq_refl).
  reflexivity.
Defined.

End LoginLaws.

Section LoopLaws.
Import Value Eff App.

Lemma dict_set_set {V : Type} (k : string) (v w : V) (d : list (string * V)) :
  dict_set k v (dict_set k w d) = dict_set k v d.
Proof.
  induction d as [ | [k' v'] d IH]; cbn.
  - rewrite String.eqb_refl. reflexivity.
  - destruct (String.eqb k k') eqn:Hk; cbn.
    + rewrite String.eqb_refl. reflexivity.
    + rewrite Hk, IH. reflexivity.
Qed.

(** The loop body of [get_components] touches one key of one object: the
    other objects and the other keys stay, nothing is allocated, and a
    second run changes nothing more. *)
Lemma add_low_stock_warning_local (p : process) (a : address)
    (d : list (string * scalar)) (q t : Z) :
  objects p !! a = Some d ->
  dict_get "quantity" d = Some (SInt q) ->
  dict_get "low_threshold" d = Some (SInt t) ->
  (forall a' : address,
      a' <> a ->
      objects (snd (add_low_stock_warning a p)) !! a' = objects p !! a')
  /\ (exists d' : list (string * scalar),
         objects (snd (add_low_stock_warning a p)) !! a = Some d'
         /\ forall k : string,
              k <> "low_stock" -> dict_get k d' = dict_get k d)
  /\ length (objects (snd (add_low_stock_warning a p))) = length (objects p)
  /\ add_low_stock_warning a (snd (add_low_stock_warning a p))
     = (Return tt, snd (add_low_stock_warning a p)).
Proof.
  intros Hd Hq Ht.
  pose proof (lookup_lt_Some _ _ _ Hd) as Hlt.
  rewrite (add_low_stock_warning_run p a d q t Hd Hq Ht). cbn [snd objects].
  split; [ | split; [ | split ] ].
  - intros a' Hne. apply list_lookup_insert_ne. congruence.
  - eexists. split; [ apply list_lookup_insert_eq; exact Hlt | ].
    intros k Hk. apply dict_get_set_ne. apply String.eqb_neq. exact Hk.
  - apply length_insert.
  - erewrite add_low_stock_warning_run.
    + cbn [objects log clock]. rewrite list_insert_insert_eq, dict_set_set. reflexivity.
    + cbn [objects]. apply list_lookup_insert_eq. exact Hlt.
    + rewrite dict_get_set_ne by reflexivity. exact Hq.
    + rewrite dict_get_set_ne by reflexivity. exact Ht.
Qed.

Lemma add_low_stock_warning_local_witness :
  add_low_stock_warning 0%nat
    (snd (add_low_stock_warning 0%nat (mkProcess [App.led] [] Sample.noon)))
  = (Return tt, snd (add_low_stock_warning 0%nat (mkProcess [App.led] [] Sample.noon))).
Proof.
  exact (proj2 (proj2 (proj2
           (add_low_stock_warning_local (mkProcess [App.led] [] Sample.noon) 0%nat App.led
                                        3 10 eq_refl eq_refl eq_refl)))).
Defined.

(** A dict without [quantity], or with [quantity] but without
    [low_threshold], makes the loop body raise [KeyError] before anything
    is written. *)
Lemma add_low_stock_warning_missing_key (p : process) (a : address)
    (d : list (string * scalar)) :
  objects p !! a = Some d ->
  (dict_get "quantity" d = None ->
   add_low_stock_warning a p = (Raise (KeyError "quantity"), p))
  /\ (forall q : scalar,
        dict_get "quantity" d = Some q ->
        dict_get "low_threshold" d = None ->
        add_low_stock_warning a p = (Raise (KeyError "low_threshold"), p)).
Proof.
  intros Hd. split.
  - intros Hq. unfold add_low_stock_warning, getitem.
    rewrite !bind_run, (deref_run p a d Hd), Hq. reflexivity.
  - intros q Hq Ht. unfold add_low_stock_warning.
    rewrite bind_run, (getitem_run p a d _ _ Hd Hq).
    unfold getitem. rewrite !bind_run, (deref_run p a d Hd), Ht. reflexivity.
Qed.

Lemma add_low_stock_warning_missing_key_witness :
  add_low_stock_warning 0%nat (mkProcess [[("quantity", SInt 1)]] [] Sample.noon)
  = (Raise (KeyError "low_threshold"), mkProcess [[("quantity", SInt 1)]] [] Sample.noon).
Proof.
  exact (proj2 (add_low_stock_warning_missing_key
                  (mkProcess [[("quantity", SInt 1)]] [] Sample.noon) 0%nat
                  [("quantity", SInt 1)] eq_refl)
               (SInt 1) eq_refl eq_refl).
Defined.

(** The counting loop returns the number of listed objects whose
    [low_stock] is truthy, added to the start value, and writes nothing. *)
Lemma sum_low_stock_counts (p : process) (cs : list address) (flags : list scalar) :
  Forall2 (fun c flag =>
             exists d, objects p !! c = Some d /\ dict_get "low_stock" d = Some flag)
          cs flags ->
  forall acc : Z,
    sum_low_stock cs acc p =
    (Return (acc + Z.of_nat (length (List.filter scalar_bool flags))), p).
Proof.
  induction 1 as [ | c flag cs flags (d & Hd & Hflag) _ IH]; intros acc.
  - cbn. rewrite Z.add_0_r. reflexivity.
  - cbn [sum_low_stock]. rewrite bind_run, (getitem_run p c d _ _ Hd Hflag), IH.
    cbn [List.filter].
    destruct (scalar_bool flag); [ | reflexivity ].
    cbn [length]. f_equal. f_equal. lia.
Qed.

Lemma sum_low_stock_counts_witness :
  sum_low_stock [0%nat; 0%nat] 0
    (mkProcess [[("low_stock", SBool true)]] [] Sample.noon)
  = (Return 2, mkProcess [[("low_stock", SBool true)]] [] Sample.noon).
Proof.
  apply (sum_low_stock_counts
           (mkProcess [[("low_stock", SBool true)]] [] Sample.noon)
           [0%nat; 0%nat] [SBool true; SBool true]).
  repeat constructor; exists [("low_stock", SBool true)]; split; reflexivity.
Defined.

End LoopLaws.

Section ServiceLaws.
Import Value Eff App.

Lemma process_eta (p : process) :
  p = mkProcess (objects p ++ []) (log p ++ []) (clock p).
Proof. destruct p; cbn. rewrite !app_nil_r. reflexivity. Qed.

(** The shape of the run of a view. *)
Lemma view_functions_run (e : endpoint) (req : request) (p : process) :
  exists (r : response) (fresh : list (list (string * scalar)))
         (records : list log_record),
    view_functions e req p =
      (Return r, mkProcess (objects p ++ fresh) (log p ++ records) (clock p))
    /\ (status r = 200 \/ (e = ep_login /\ (status r = 400 \/ status r = 500))).
Proof.
  destruct e; cbn [view_functions].
  - exists (mkResponse WelcomePage 200), [], [].
    split; [ | left; reflexivity ].
    rewrite <- process_eta. reflexivity.
  - eexists _, [], []. split.
    + rewrite health_check_healthy, <- process_eta. reflexivity.
    + left; reflexivity.
  - destruct (login_run req p)
      as [(e & Hrun & _) | [(data & _ & _ & Hrun) | (data & u & _ & _ & _ & Hrun)]];
      rewrite Hrun.
    + eexists _, [], _. rewrite app_nil_r. split; [ reflexivity | ].
      right. split; [ reflexivity | right; reflexivity ].
    + eexists _, [], []. rewrite <- process_eta. split; [ reflexivity | ].
      right. split; [ reflexivity | left; reflexivity ].
    + eexists _, [], _. rewrite app_nil_r. split; [ reflexivity | ].
      left. reflexivity.
  - destruct p as [old lg ck]. rewrite get_components_rebase.
    pose proof (get_components_fixed_inventory (mkProcess [] [] ck)) as Hfix.
    destruct (get_components (mkProcess [] [] ck)) as [o q]. cbn in Hfix. subst o.
    eexists _, _, _. split; [ reflexivity | left; reflexivity ].
Qed.

(** The run of the handling of an HTTP error. *)
Lemma handle_http_exception_run (code : Z) (p : process) :
  exists r : response,
    handle_user_exception (HTTPException code) p = (Return r, p)
    /\ status r = code
    /\ (code = 404 -> body r = Json (JObject [ ("error", JStr "Endpoint not found") ]))
    /\ (code = 500 -> body r = Json (JObject [ ("error", JStr "Internal server error") ]))
    /\ (code <> 404 -> code <> 500 -> body r = ErrorPage).
Proof.
  unfold handle_user_exception, error_handler_spec.
  destruct (Z.eqb_spec code 404) as [-> | H404].
  - eexists. split; [ reflexivity | ]. cbn. repeat split; try reflexivity; lia.
  - destruct (Z.eqb_spec code 500) as [-> | H500].
    + eexists. split; [ reflexivity | ]. cbn. repeat split; try reflexivity; lia.
    + eexists. split; [ reflexivity | ]. cbn. repeat split; try reflexivity; lia.
Qed.

Variable url_match : list rule -> string -> string -> outcome endpoint.

(** Whatever the outcome, serving a request changes no existing object
    and not the clock, and only appends to the log. *)
Lemma full_dispatch_request_appends (req : request) (p : process) :
  exists (fresh : list (list (string * scalar))) (records : list log_record),
    snd (full_dispatch_request url_match req p) =
    mkProcess (objects p ++ fresh) (log p ++ records) (clock p).
Proof.
  unfold full_dispatch_request, try_except, eval. rewrite bind_run.
  destruct (url_match url_map (method req) (path req)) as [e | e].
  - destruct (String.eqb (method req) "OPTIONS").
    + exists [], []. cbn. apply process_eta.
    + destruct (view_functions_run e req p) as (r & fresh & records & Hrun & _).
      rewrite Hrun. exists fresh, records. reflexivity.
  - exists [], []. rewrite <- process_eta.
    destruct e as [ msg | key | | | code | ]; try reflexivity.
    destruct (handle_http_exception_run code p) as (r & Hrun & _).
    rewrite Hrun. reflexivity.
Qed.

(** Over any sequence of requests the store and the log only grow: every
    object and every log record present before is still there, in
    place. *)
Lemma serve_all_appends (events : list arrival) (p : process) :
  exists (fresh : list (list (string * scalar))) (records : list log_record),
    objects (serve_all url_match events p) = (objects p ++ fresh)%list
    /\ log (serve_all url_match events p) = (log p ++ records)%list.
Proof.
  revert p. induction events as [ | ev events IH]; intros p.
  - exists [], []. cbn. rewrite !app_nil_r. auto.
  - cbn [serve_all].
    destruct (full_dispatch_request_appends (arrival_request ev)
                                            (set_clock (arrival_time ev) p))
      as (fresh1 & records1 & Hstep).
    destruct (IH (snd (full_dispatch_request url_match (arrival_request ev)
                                             (set_clock (arrival_time ev) p))))
      as (fresh2 & records2 & Hobjects & Hlog).
    rewrite Hobjects, Hlog, Hstep. cbn.
    exists (fresh1 ++ fresh2)%list, (records1 ++ records2)%list.
    rewrite !app_assoc. auto.
Qed.

(** An object that exists is found unchanged at its address after any
    sequence of requests, and so is every record of the log. *)
Lemma serve_all_keeps_objects (events : list arrival) (p : process) :
  (forall (a : address) (d : list (string * scalar)),
      objects p !! a = Some d ->
      objects (serve_all url_match events p) !! a = Some d)
  /\ (forall (i : nat) (record : log_record),
        log p !! i = Some record ->
        log (serve_all url_match events p) !! i = Some record).
Proof.
  destruct (serve_all_appends events p) as (fresh & records & Hobjects & Hlog).
  rewrite Hobjects, Hlog.
  split; intros i x Hx; apply lookup_app_l_Some; exact Hx.
Qed.

(** When routing raises nothing but HTTP errors, every request is
    answered. *)
Lemma service_always_answers (req : request) (p : process) :
  (forall e : exn,
      url_match url_map (method req) (path req) = Raise e ->
      exists code : Z, e = HTTPException code) ->
  exists r : response, fst (full_dispatch_request url_match req p) = Return r.
Proof.
  intros Hhttp.
  unfold full_dispatch_request, try_except, eval. rewrite bind_run.
  destruct (url_match url_map (method req) (path req)) as [e | e].
  - destruct (String.eqb (method req) "OPTIONS").
    + eexists. reflexivity.
    + destruct (view_functions_run e req p) as (r & fresh & records & Hrun & _).
      rewrite Hrun. exists r. reflexivity.
  - destruct (Hhttp e eq_refl) as [code ->].
    destruct (handle_http_exception_run code p) as (r & Hrun & _).
    rewrite Hrun. exists r. reflexivity.
Qed.

End ServiceLaws.

Lemma match_exact_raises_http (rules : list App.rule) (m p : string) (e : Value.exn) :
  App.match_exact rules m p = Value.Raise e ->
  exists code : Z, e = Value.HTTPException code.
Proof.
  induction rules as [ | r rules IH]; cbn.
  - intros H. inversion H. eauto.
  - destruct (String.eqb p (App.rule_path r)); [ | exact IH ].
    destruct (existsb (String.eqb m) (App.rule_methods r)); intros H; inversion H.
    eauto.
Qed.

Lemma serve_all_keeps_objects_witness :
  App.objects
    (App.serve_all App.match_exact
       [ App.mkArrival Sample.noon (App.mkRequest "GET" "/components" (Value.Return Value.JNull));
         App.mkArrival Sample.noon Sample.login_request ]
       (App.mkProcess [App.led] [] Sample.noon))
    !! 0%nat = Some App.led.
Proof.
  exact (proj1 (serve_all_keeps_objects App.match_exact _
                  (App.mkProcess [App.led] [] Sample.noon))
               0%nat App.led eq_refl).
Defined.

Lemma service_always_answers_witness :
  exists r : App.response,
    fst (App.full_dispatch_request App.match_exact Sample.unknown_request
                                   Sample.fresh_process) = Value.Return r.
Proof.
  apply (service_always_answers App.match_exact Sample.unknown_request Sample.fresh_process).
  intros e He. exact (match_exact_raises_http _ _ _ e He).
Defined.

(** * Properties of the configuration module *)

Section ConfigLaws.
Import Value Config.

Variable int_of_str : string -> outcome Z.
Variable environ : gmap string string.

Lemma unset_false (k : string) :
  unset environ k = false <-> exists v : string, environ !! k = Some v /\ v <> "".
Proof.
  unfold unset. destruct (environ !! k) as [v | ].
  - rewrite String.eqb_neq. split; [ eauto | ]. intros (v' & Hv & Hne). congruence.
  - split; [ discriminate | ]. intros (v' & Hv & _). discriminate.
Qed.

(** Case analysis on what the import reads. *)
Ltac import_cases :=
  unfold import, Config_body, ProductionConfig_body;
  destruct (get_int int_of_str environ "ITEMS_PER_PAGE" 20) as [items | e1];
  [ destruct (get_int int_of_str environ "MAX_ITEMS_PER_PAGE" 100) as [max_items | e2];
    [ destruct (unset environ "SECRET_KEY") eqn:Hsecret;
      [ | destruct (unset environ "JWT_SECRET_KEY") eqn:Hjwt ] | ] | ];
  cbn.

(** The module can be imported exactly when the two pagination settings
    can be read and both [SECRET_KEY] and [JWT_SECRET_KEY] are set and
    not empty: the checks of the production class run for every user of
    the module. *)
Lemma import_succeeds_iff :
  (exists m : module, import int_of_str environ = Return m)
  <-> (exists items : Z, get_int int_of_str environ "ITEMS_PER_PAGE" 20 = Return items)
      /\ (exists max_items : Z,
             get_int int_of_str environ "MAX_ITEMS_PER_PAGE" 100 = Return max_items)
      /\ (exists v : string, environ !! "SECRET_KEY" = Some v /\ v <> "")
      /\ (exists v : string, environ !! "JWT_SECRET_KEY" = Some v /\ v <> "").
Proof.
  rewrite <- !unset_false.
  import_cases;
    (split;
     [ intros [m Hm]; try discriminate; eauto 10
     | intros ([x1 H1] & [x2 H2] & H3 & H4); try discriminate; eauto ]).
Qed.

(** How the import fails: an unreadable pagination setting raises what
    [int] raises, before any secret is looked at; then a missing or
    empty [SECRET_KEY] raises, then a missing or empty
    [JWT_SECRET_KEY]. *)
Lemma import_failures :
  (forall e : exn,
      get_int int_of_str environ "ITEMS_PER_PAGE" 20 = Raise e ->
      import int_of_str environ = Raise e)
  /\ (forall (items : Z) (e : exn),
        get_int int_of_str environ "ITEMS_PER_PAGE" 20 = Return items ->
        get_int int_of_str environ "MAX_ITEMS_PER_PAGE" 100 = Raise e ->
        import int_of_str environ = Raise e)
  /\ (forall items max_items : Z,
        get_int int_of_str environ "ITEMS_PER_PAGE" 20 = Return items ->
        get_int int_of_str environ "MAX_ITEMS_PER_PAGE" 100 = Return max_items ->
        (environ !! "SECRET_KEY" = None \/ environ !! "SECRET_KEY" = Some "") ->
        import int_of_str environ =
        Raise (ValueError "No SECRET_KEY set for production environment"))
  /\ (forall (items max_items : Z) (secret : string),
        get_int int_of_str environ "ITEMS_PER_PAGE" 20 = Return items ->
        get_int int_of_str environ "MAX_ITEMS_PER_PAGE" 100 = Return max_items ->
        environ !! "SECRET_KEY" = Some secret -> secret <> "" ->
        (environ !! "JWT_SECRET_KEY" = None \/ environ !! "JWT_SECRET_KEY" = Some "") ->
        import int_of_str environ =
        Raise (ValueError "No JWT_SECRET_KEY set for production environment")).
Proof.
  assert (Hunset : forall k,
    (environ !! k = None \/ environ !! k = Some "") -> unset environ k = true).
  { intros k [Hk | Hk]; unfold unset; rewrite Hk; reflexivity. }
  split; [ | split; [ | split ] ].
  - intros e He. unfold import, Config_body. rewrite He. reflexivity.
  - intros items e Hi He. unfold import, Config_body. rewrite Hi, He. reflexivity.
  - intros items max_items Hi Hm Hs. apply Hunset in Hs.
    unfold import, Config_body, ProductionConfig_body. rewrite Hi, Hm, Hs. reflexivity.
  - intros items max_items secret Hi Hm Hs Hne Hj. apply Hunset in Hj.
    assert (Hset : unset environ "SECRET_KEY" = false) by (apply unset_false; eauto).
    unfold import, Config_body, ProductionConfig_body. rewrite Hi, Hm, Hset, Hj.
    reflexivity.
Qed.

(** Once the module is imported, [SECRET_KEY] and [JWT_SECRET_KEY] of
    every class are the values of the environment: the development
    defaults of the base class are never in effect. *)
Lemma secrets_come_from_environ (m : module) (cls : pyclass) :
  import int_of_str environ = Return m ->
  In cls [ Config m; DevelopmentConfig m; TestingConfig m; ProductionConfig m ] ->
  getattr cls "SECRET_KEY" = SetStr <$> environ !! "SECRET_KEY"
  /\ getattr cls "JWT_SECRET_KEY" = SetStr <$> environ !! "JWT_SECRET_KEY"
  /\ getattr cls "SECRET_KEY" <> Some (SetStr "")
  /\ getattr cls "JWT_SECRET_KEY" <> Some (SetStr "").
Proof.
  import_cases; intros Hm; try discriminate. inversion Hm; subst m; clear Hm.
  apply unset_false in Hsecret, Hjwt.
  destruct Hsecret as (secret & Hsecret & Hs), Hjwt as (jwt & Hjwt & Hj).
  apply String.eqb_neq in Hs as Hs', Hj as Hj'.
  cbn [Config DevelopmentConfig TestingConfig ProductionConfig In].
  intros [<- | [<- | [<- | [<- | []]]]]; cbn;
    unfold get_or, get_setting; rewrite ?Hsecret, ?Hjwt, ?Hs', ?Hj'; cbn;
    repeat split; congruence.
Qed.

(** The database of each class: the testing class is always in memory;
    the base and development classes fall back to [sqlite:///lims.db]
    for a missing or empty [DATABASE_URL]; the production class takes
    [DATABASE_URL] as it is, which is [None] when it is missing. *)
Lemma database_uri_by_class (m : module) :
  import int_of_str environ = Return m ->
  getattr (TestingConfig m) "SQLALCHEMY_DATABASE_URI" = Some (SetStr "sqlite:///:memory:")
  /\ getattr (Config m) "SQLALCHEMY_DATABASE_URI"
     = Some (SetStr (get_or environ "DATABASE_URL" "sqlite:///lims.db"))
  /\ getattr (DevelopmentConfig m) "SQLALCHEMY_DATABASE_URI"
     = Some (SetStr (get_or environ "DATABASE_URL" "sqlite:///lims.db"))
  /\ get_or environ "DATABASE_URL" "sqlite:///lims.db" <> ""
  /\ getattr (ProductionConfig m) "SQLALCHEMY_DATABASE_URI"
     = Some (get_setting environ "DATABASE_URL")
  /\ (environ !! "DATABASE_URL" = None ->
      getattr (ProductionConfig m) "SQLALCHEMY_DATABASE_URI" = Some SetNone).
Proof.
  import_cases; intros Hm; try discriminate. inversion Hm; subst m; clear Hm. cbn.
  repeat split.
  - unfold get_or. destruct (environ !! "DATABASE_URL") as [v | ]; [ | discriminate ].
    destruct (String.eqb_spec v ""); [ discriminate | assumption ].
  - intros Hnone. unfold get_setting. rewrite Hnone. reflexivity.
Qed.

Lemma split_nonempty (sep : ascii) (s : string) : split sep s <> [].
Proof.
  destruct s as [ | c s]; cbn; [ discriminate | ].
  destruct (Ascii.eqb c sep); [ discriminate | ].
  destruct (split sep s); discriminate.
Qed.

(** Joining the pieces of a split with the separator gives the string
    back. *)
Lemma concat_split (sep : ascii) (s : string) :
  String.concat (String sep EmptyString) (split sep s) = s.
Proof.
  induction s as [ | c s IH]; cbn [split]; [ reflexivity | ].
  pose proof (split_nonempty sep s) as Hne.
  destruct (Ascii.eqb_spec c sep) as [-> | Hc].
  - destruct (split sep s) as [ | piece pieces] eqn:Hsplit; [ congruence | ].
    rewrite <- IH. reflexivity.
  - destruct (split sep s) as [ | piece pieces] eqn:Hsplit; [ congruence | ].
    destruct pieces as [ | piece' pieces]; rewrite <- IH; reflexivity.
Qed.

(** [CORS_ORIGINS] is never an empty list, and its entries joined by
    commas are the value of the variable, or [*] when it is not set. *)
Lemma cors_origins_round_trip (m : module) :
  import int_of_str environ = Return m ->
  exists origins : list string,
    getattr (Config m) "CORS_ORIGINS" = Some (SetList origins)
    /\ getattr (ProductionConfig m) "CORS_ORIGINS" = Some (SetList origins)
    /\ origins <> []
    /\ String.concat "," origins = get_default environ "CORS_ORIGINS" "*"
    /\ (environ !! "CORS_ORIGINS" = None -> origins = ["*"]).
Proof.
  import_cases; intros Hm; try discriminate. inversion Hm; subst m; clear Hm. cbn.
  eexists. split; [ reflexivity | split; [ reflexivity | split; [ | split ] ] ].
  - apply split_nonempty.
  - apply concat_split.
  - intros Hnone. unfold get_default. rewrite Hnone. reflexivity.
Qed.

End ConfigLaws.

Lemma import_succeeds_iff_witness :
  exists m : Config.module,
    Config.import Config.int_of_digits Sample.production_environ = Value.Return m.
Proof.
  apply (proj2 (import_succeeds_iff Config.int_of_digits Sample.production_environ)).
  split; [ exists 20; reflexivity | ].
  split; [ exists 100; reflexivity | ].
  split; [ exists "s3cret" | exists "jwt-s3cret" ]; (split; [ reflexivity | discriminate ]).
Defined.

Lemma import_failures_witness :
  Config.import Config.int_of_digits Sample.empty_environ =
  Value.Raise (Value.ValueError "No SECRET_KEY set for production environment").
Proof.
  apply (proj1 (proj2 (proj2 (import_failures Config.int_of_digits Sample.empty_environ)))
               20 100 eq_refl eq_refl).
  left. reflexivity.
Defined.

(** * Leaves: statements about the service as a whole *)

(** No view raises: each one returns a response, with status 200, or
    400 or 500 from [login]; it changes no existing object and not the
    clock, and only appends to the log. *)
Theorem views_always_answer (e : App.endpoint) (req : App.request) (p : App.process) :
  exists (r : App.response) (fresh : list (list (string * Value.scalar)))
         (records : list App.log_record),
    App.view_functions e req p =
      (Value.Return r,
       App.mkProcess (App.objects p ++ fresh) (App.log p ++ records) (App.clock p))
    /\ (App.status r = 200
        \/ (e = App.ep_login /\ (App.status r = 400 \/ App.status r = 500))).
Proof. exact (view_functions_run e req p). Qed.

(** An HTTP error that reaches Flask is answered with its own status
    code, by the JSON handlers for 404 and 500 and by the default page
    for the rest, and changes nothing. *)
Theorem http_error_keeps_its_code (code : Z) (p : App.process) :
  exists r : App.response,
    App.handle_user_exception (Value.HTTPException code) p = (Value.Return r, p)
    /\ App.status r = code
    /\ (code = 404 ->
        App.body r = App.Json (Value.JObject [ ("error", Value.JStr "Endpoint not found") ]))
    /\ (code = 500 ->
        App.body r = App.Json (Value.JObject [ ("error", Value.JStr "Internal server error") ]))
    /\ (code <> 404 -> code <> 500 -> App.body r = App.ErrorPage).
Proof. exact (handle_http_exception_run code p). Qed.

Lemma http_error_keeps_its_code_witness :
  exists r : App.response,
    App.handle_user_exception (Value.HTTPException 405) Sample.fresh_process
      = (Value.Return r, Sample.fresh_process)
    /\ App.status r = 405
    /\ App.body r = App.ErrorPage.
Proof.
  destruct (http_error_keeps_its_code 405 Sample.fresh_process)
    as (r & Hrun & Hstatus & _ & _ & Hbody).
  exists r. split; [ exact Hrun | split; [ exact Hstatus | ] ].
  apply Hbody; lia.
Defined.

(** The answer to a request is a function of the request and the clock:
    two processes that differ in their objects and logs give the same
    response. *)
Theorem responses_depend_on_clock_only
    (url_match : list App.rule -> string -> string -> Value.outcome App.endpoint)
    (req : App.request) (p q : App.process) :
  App.clock p = App.clock q ->
  fst (App.full_dispatch_request url_match req p) =
  fst (App.full_dispatch_request url_match req q).
Proof. apply full_dispatch_request_clock_only. Qed.

Lemma responses_depend_on_clock_only_witness :
  fst (App.full_dispatch_request App.match_exact
         (App.mkRequest "GET" "/components" (Value.Return Value.JNull))
         (App.mkProcess [App.led] [] Sample.noon)) =
  fst (App.full_dispatch_request App.match_exact
         (App.mkRequest "GET" "/components" (Value.Return Value.JNull))
         Sample.fresh_process).
Proof.
  exact (responses_depend_on_clock_only App.match_exact
           (App.mkRequest "GET" "/components" (Value.Return Value.JNull))
           (App.mkProcess [App.led] [] Sample.noon) Sample.fresh_process eq_refl).
Defined.

Lemma login_always_answers_witness :
  exists r : App.response,
    fst (App.login Sample.incomplete_login_request Sample.fresh_process) = Value.Return r
    /\ App.status r = 400
    /\ App.log (snd (App.login Sample.incomplete_login_request Sample.fresh_process)) = [].
Proof.
  destruct (login_always_answers Sample.incomplete_login_request Sample.fresh_process)
    as (r & Hr & _ & _ & _ & Hquiet & _).
  exists r.
  assert (Hs : App.status r = 400) by (cbv in Hr; inversion Hr; reflexivity).
  split; [ exact Hr | split; [ exact Hs | exact (Hquiet Hs) ] ].
Defined.

Lemma login_ok_iff_witness :
  exists r : App.response,
    fst (App.login Sample.login_request Sample.fresh_process) = Value.Return r
    /\ App.status r = 200.
Proof.
  apply (proj2 (login_ok_iff Sample.login_request Sample.fresh_process)).
  exists Sample.credentials. repeat split.
Defined.

Lemma login_bad_request_iff_witness :
  exists r : App.response,
    fst (App.login (App.mkRequest "POST" "/login" (Value.Return Value.JNull))
                   Sample.fresh_process) = Value.Return r
    /\ App.status r = 400.
Proof.
  apply (proj2 (login_bad_request_iff
                  (App.mkRequest "POST" "/login" (Value.Return Value.JNull))
                  Sample.fresh_process)).
  exists Value.JNull. split; [ reflexivity | left; reflexivity ].
Defined.

Lemma run_calls_nonneg_witness :
  0 <= Models.quantity Sample.led_component
  /\ 0 <= Models.quantity
            (Models.run_calls
               [ (Sample.noon, Models.RemoveStock 5);
                 (Sample.noon, Models.AddStock 2);
                 (Sample.noon, Models.RemoveStock 5) ]
               Sample.led_component).
Proof.
  assert (H : 0 <= Models.quantity Sample.led_component) by (cbn; lia).
  split; [ exact H | ].
  exact (run_calls_nonneg _ Sample.led_component H).
Defined.

Lemma secrets_come_from_environ_witness :
  exists m : Config.module,
    Config.import Config.int_of_digits Sample.production_environ = Value.Return m
    /\ Config.getattr (Config.DevelopmentConfig m) "SECRET_KEY"
       = Some (Config.SetStr "s3cret").
Proof.
  eexists. split; [ vm_compute; reflexivity | ].
  exact (proj1 (secrets_come_from_environ Config.int_of_digits Sample.production_environ
                  _ _ eq_refl (or_intror (or_introl eq_refl)))).
Defined.

Lemma database_uri_by_class_witness :
  exists m : Config.module,
    Config.import Config.int_of_digits Sample.production_environ = Value.Return m
    /\ Config.getattr (Config.TestingConfig m) "SQLALCHEMY_DATABASE_URI"
       = Some (Config.SetStr "sqlite:///:memory:")
    /\ Config.getattr (Config.ProductionConfig m) "SQLALCHEMY_DATABASE_URI"
       = Some Config.SetNone.
Proof.
  eexists. split; [ vm_compute; reflexivity | ].
  destruct (database_uri_by_class Config.int_of_digits Sample.production_environ _ eq_refl)
    as (Htest & _ & _ & _ & _ & Hprod).
  split; [ exact Htest | exact (Hprod eq_refl) ].
Defined.

Lemma cors_origins_round_trip_witness :
  exists origins : list string,
    Config.getattr
      (match Config.import Config.int_of_digits Sample.production_environ with
       | Value.Return m => Config.Config m
       | Value.Raise _ => Config.Class "" [] None
       end) "CORS_ORIGINS" = Some (Config.SetList origins)
    /\ origins <> [].
Proof.
  destruct (Config.import Config.int_of_digits Sample.production_environ)
    as [m | e] eqn:Himport; [ | vm_compute in Himport; discriminate ].
  destruct (cors_origins_round_trip Config.int_of_digits Sample.production_environ m Himport)
    as (origins & Hbase & _ & Hne & _).
  exists origins. split; [ exact Hbase | exact Hne ].
Defined.
